(** * Spatial point types of the Neo4j Python driver

    A shallow embedding of [neo4j/v1/types/spatial.py]: the table of point
    types, the classes created from it when the module is imported, the
    [Point] class with its factory [hydrate], and the equality, hashing and
    display of point values. *)

From stdpp Require Import gmap strings list pretty.

Set Warnings "-register-all".

Open Scope Z_scope.

(** ** The fragment of the Python runtime the module relies on *)

(** Exceptions. [ValueError] and [IndexError] carry their message; an
    [OtherError] stands for any exception class not named in the module. *)
Inductive exn : Type :=
| ValueError (msg : string)
| IndexError (msg : string)
| AttributeError
| TypeError
| OtherError (name : string).

(** The outcome of evaluating an expression: a value or a raised exception. *)
Inductive result (T : Type) : Type :=
| Ok (v : T)
| Raise (e : exn).

Arguments Ok {T} v.
Arguments Raise {T} e.

Definition bind {T U : Type} (r : result T) (k : T -> result U) : result U :=
  match r with
  | Ok v => k v
  | Raise e => Raise e
  end.

Notation "'let*' x ':=' r 'in' k" := (bind r (fun x => k))
  (at level 10, x name, r at level 100, k at level 200).

(** The exception classes named by [except (AttributeError, TypeError)]. *)
Definition caught (e : exn) : bool :=
  match e with
  | AttributeError | TypeError => true
  | _ => false
  end.

(** [try: body except (AttributeError, TypeError): handler]. Every other
    exception propagates. *)
Definition try_except_attr_type {T : Type} (body handler : result T) : result T :=
  match body with
  | Ok v => Ok v
  | Raise e => if caught e then handler else Raise e
  end.

(** An evaluation that raises nothing, or an exception of these classes. *)
Definition raises_only_caught {T : Type} (r : result T) : Prop :=
  match r with
  | Ok _ => True
  | Raise e => caught e = true
  end.

(** The values the attribute [crs] takes: [None] (the default of the base
    class) or an integer code. *)
Inductive crsv : Type :=
| NoneV
| IntV (z : Z).

(** [a == b] on these values. *)
Definition crsv_eqb (a b : crsv) : bool :=
  match a, b with
  | NoneV, NoneV => true
  | IntV x, IntV y => x =? y
  | _, _ => false
  end.

(** The built-in operations applied to coordinates and attribute values.
    The module does not restrict the type of a coordinate, so the
    development is parametric in it. *)
Class Builtins (A : Type) : Type := {
  py_eq : A -> A -> bool;        (* a == b, as tuple comparison applies it *)
  py_hash : A -> Z;              (* hash(a) *)
  py_str : A -> string;          (* str(a) *)
  hash_none : Z;                 (* hash(None) *)
  hash_int : Z -> Z;             (* hash(n) for an int n *)
  hash_tuple : list Z -> Z       (* hash of a tuple, from the hashes of its items *)
}.

(** What Python guarantees of numbers: [==] is an equivalence and equal
    numbers have equal hashes. *)
Class BuiltinLaws (A : Type) `{Builtins A} : Prop := {
  py_eq_refl : forall a : A, py_eq a a = true;
  py_eq_sym : forall a b : A, py_eq a b = true -> py_eq b a = true;
  py_eq_trans : forall a b c : A, py_eq a b = true -> py_eq b c = true -> py_eq a c = true;
  py_hash_eq : forall a b : A, py_eq a b = true -> py_hash a = py_hash b
}.

(** ["%d" % n] *)
Definition fmt_d (n : Z) : string := pretty n.

(** [len(t)] as a Python int. *)
Definition len {T : Type} (t : list T) : Z := Z.of_nat (length t).

(** [" ".join(parts)] *)
Definition join_space (parts : list string) : string := String.concat " " parts.

(** [t[index]] for a non-negative index. *)
Definition tuple_getitem {T : Type} (t : list T) (index : nat) : result T :=
  match t !! index with
  | Some v => Ok v
  | None => Raise (IndexError "tuple index out of range")
  end.

(** [s == t] on tuples: same length and item-wise [==]. *)
Fixpoint tuple_eqb {A : Type} `{Builtins A} (s t : list A) : bool :=
  match s, t with
  | [], [] => true
  | a :: s', b :: t' => py_eq a b && tuple_eqb s' t'
  | _, _ => false
  end.

(** [hash(v)] for a value of the attribute [crs]. *)
Definition hash_crsv {A : Type} `{Builtins A} (v : crsv) : Z :=
  match v with
  | NoneV => hash_none
  | IntV z => hash_int z
  end.

(** ** Classes *)

(** An entry of a class dictionary: a plain value, or a [property] whose
    getter is [lambda self, index=i: self[index]]. *)
Inductive attr : Type :=
| AttrValue (v : crsv)
| AttrProperty (index : nat).

(** A class: its name, its dictionary and its direct subclasses in the
    order of their creation (what [cls.__subclasses__()] lists). *)
Inductive pyclass : Type :=
  PyClass { cls_name : string;
            cls_dict : gmap string attr;
            cls_subclasses : list pyclass }.

(** [cls.crs]: the entry of the class itself, else the [crs = None] that
    every class inherits from [Point]. No class of the module binds the
    name [crs] to a property. *)
Definition class_crs (cls : pyclass) : crsv :=
  match cls_dict cls !! "crs"%string with
  | Some (AttrValue v) => v
  | _ => NoneV
  end.

(** The table [__point_types]: CRS code, type name, attribute names. *)
Definition __point_types : list (Z * string * list string) :=
  [ (7203, "CartesianPoint", ["x"; "y"]);
    (9157, "CartesianPoint3D", ["x"; "y"; "z"]);
    (4326, "WGS84Point", ["longitude"; "latitude"]);
    (4979, "WGS84Point3D", ["longitude"; "latitude"; "height"]) ]%string.

(** [enumerate(fields)] *)
Definition enumerate {T : Type} (l : list T) : list (nat * T) :=
  zip (seq 0 (length l)) l.

(** The dictionary [attributes] built in the body of the loop of
    [__create_point_types]. *)
Definition attributes (crs : Z) (fields : list string) : gmap string attr :=
  fold_left (fun d '(i, field) => <[field := AttrProperty i]> d)
            (enumerate fields)
            {["crs"%string := AttrValue (IntV crs)]}.

(** [type(name, (Point,), attributes)] *)
Definition make_type (crs : Z) (name : string) (fields : list string) : pyclass :=
  PyClass name (attributes crs fields) [].

(** [__create_point_types]: the classes created, in order. Each of them is
    a direct subclass of [Point] and is bound to its name in the module. *)
Definition __create_point_types (types : list (Z * string * list string)) : list pyclass :=
  map (fun '(crs, name, fields) => make_type crs name fields) types.

(** The class [Point] once the module is imported. *)
Definition Point : pyclass :=
  PyClass "Point" {["crs"%string := AttrValue NoneV]}
          (__create_point_types __point_types).

(** The names [setattr(this_module, name, ...)] binds, a later binding
    replacing an earlier one. *)
Definition module_scope : gmap string pyclass :=
  fold_left (fun m cls => <[cls_name cls := cls]> m)
            (__create_point_types __point_types)
            {["Point"%string := Point]}.

(** The CRS codes of the table. *)
Definition registered_crs : list Z := map (fun t => fst (fst t)) __point_types.

(** [Point.__get_subclass] *)
Fixpoint __get_subclass (cls : pyclass) (crs : Z) : option pyclass :=
  if crsv_eqb (class_crs cls) (IntV crs) then Some cls
  else
    (fix search (subclasses : list pyclass) : option pyclass :=
       match subclasses with
       | [] => None
       | subclass :: rest =>
         match __get_subclass subclass crs with
         | Some got => Some got
         | None => search rest
         end
       end) (cls_subclasses cls).

(** What [other.crs] is to the comparison [self.crs == other.crs], for an
    [other] that is not a point: [None] or an int, compared by value, or
    another object, given by what the comparison with it evaluates to, which
    is a Boolean or the exception its [__eq__] raises. *)
Inductive crs_attr : Type :=
| CrsPlain (v : crsv)
| CrsObject (eq : crsv -> result bool).

(** [v == other.crs] *)
Definition crs_eq (v : crsv) (w : crs_attr) : result bool :=
  match w with
  | CrsPlain u => Ok (crsv_eqb v u)
  | CrsObject eq => eq v
  end.

(** ** Point values *)

Section PointValues.
Context {A : Type} `{Builtins A}.

(** An instance of [Point] or of a subclass: its class, its instance
    dictionary and the items of the underlying tuple. *)
Record point : Type := MkPoint {
  pt_class : pyclass;
  pt_dict : gmap string crsv;
  pt_items : list A
}.

(** [Point.__new__(cls, iterable)], the iterable given by its items. *)
Definition __new__ (cls : pyclass) (iterable : list A) : point :=
  MkPoint cls ∅ iterable.

(** [inst.crs = crs] *)
Definition setattr_crs (inst : point) (crs : crsv) : point :=
  MkPoint (pt_class inst) (<["crs"%string := crs]> (pt_dict inst)) (pt_items inst).

(** [inst.crs]: the instance dictionary first, then the class. *)
Definition point_crs (inst : point) : crsv :=
  match pt_dict inst !! "crs"%string with
  | Some v => v
  | None => class_crs (pt_class inst)
  end.

(** [inst.<name>] for a name the class binds to a property: the getter
    runs [self[index]]. Other names are not looked up here. *)
Definition getattr_property (inst : point) (name : string) : result A :=
  match cls_dict (pt_class inst) !! name with
  | Some (AttrProperty index) => tuple_getitem (pt_items inst) index
  | _ => Raise AttributeError
  end.

(** [Point.hydrate(cls, crs, *coordinates)] *)
Definition hydrate (cls : pyclass) (crs : Z) (coordinates : list A) : result point :=
  match __get_subclass cls crs with
  | None => Raise (ValueError ("CRS " +:+ fmt_d crs +:+ " not supported"))
  | Some point_class =>
    if (2 <=? len coordinates) && (len coordinates <=? 3) then
      let inst := __new__ point_class coordinates in
      Ok (setattr_crs inst (IntV crs))
    else
      Raise (ValueError (fmt_d (len coordinates)
                           +:+ "-dimensional Point values are not supported"))
  end.

(** [Point.__repr__] *)
Definition __repr__ (self : point) : string :=
  "POINT(" +:+ join_space (map py_str (pt_items self)) +:+ ")".

(** An item of another iterable, as the comparison of two tuples sees it:
    a coordinate value, compared by [py_eq], or another object, given by
    what the comparison of a coordinate with it evaluates to, a Boolean or
    the exception its [__eq__] raises. *)
Inductive item : Type :=
| Coordinate (a : A)
| ItemObject (eq : A -> result bool).

(** The comparison of one item of [self] with one item of [other]. *)
Definition item_eq (a : A) (i : item) : result bool :=
  match i with
  | Coordinate b => Ok (py_eq a b)
  | ItemObject eq => eq a
  end.

(** [tuple(self) == tuple(other)]: the items are compared pair by pair from
    the first on, up to the first pair that differs (the answer is then
    false) or whose comparison raises; when one tuple is exhausted the
    lengths decide. *)
Fixpoint tuple_eq (s : list A) (t : list item) : result bool :=
  match s, t with
  | [], [] => Ok true
  | a :: s', i :: t' =>
    let* same := item_eq a i in
    if same then tuple_eq s' t' else Ok false
  | _, _ => Ok false
  end.

(** The values a point is compared with. [ONone], [OInt], [OItem] (a
    coordinate value such as a float), [OList] and [OTuple] are built-in
    values: none has an attribute [crs]. [OForeign] is an instance of a
    class unrelated to [Point], given by what [other.crs] and
    [tuple(other)] evaluate to, each a value or a raised exception; its
    comparisons return Booleans or raise. *)
Inductive pyobj : Type :=
| ONone
| OInt (z : Z)
| OItem (a : A)
| OList (l : list A)
| OTuple (l : list A)
| OPoint (p : point)
| OForeign (crs : result crs_attr) (items : result (list item)).

Definition is_point (x : pyobj) : bool :=
  match x with
  | OPoint _ => true
  | _ => false
  end.

(** [other.crs] *)
Definition getattr_crs (other : pyobj) : result crs_attr :=
  match other with
  | OPoint p => Ok (CrsPlain (point_crs p))
  | OForeign crs _ => crs
  | _ => Raise AttributeError
  end.

(** [tuple(other)] *)
Definition py_tuple (other : pyobj) : result (list item) :=
  match other with
  | OList l | OTuple l => Ok (map Coordinate l)
  | OPoint p => Ok (map Coordinate (pt_items p))
  | OForeign _ items => items
  | ONone | OInt _ | OItem _ => Raise TypeError
  end.

(** [Point.__eq__]: the attribute lookup, the two comparisons and the
    conversion all run inside the [try]. *)
Definition __eq__ (self : point) (other : pyobj) : result bool :=
  try_except_attr_type
    (let* other_crs := getattr_crs other in
     let* same_crs := crs_eq (point_crs self) other_crs in
     if same_crs
     then (let* other_items := py_tuple other in
           tuple_eq (pt_items self) other_items)
     else Ok false)
    (Ok false).

(** [Point.__ne__] *)
Definition __ne__ (self : point) (other : pyobj) : result bool :=
  let* b := __eq__ self other in Ok (negb b).

(** [Point.__hash__] *)
Definition __hash__ (self : point) : Z :=
  Z.lxor (hash_crsv (point_crs self)) (hash_tuple (map py_hash (pt_items self))).

End PointValues.

Arguments point A : clear implicits.
Arguments pyobj A : clear implicits.
Arguments item A : clear implicits.

(** ** A concrete coordinate type

    Python numbers as far as the examples need them: ints, and floats whose
    value is a whole number of magnitude below 10^16 (such as [1.0]), which
    [str] prints as the digits of the number followed by [.0]. An int and
    a float of the same value are [==] and have the same hash. The hashes
    of ints and of tuples are those of a 64-bit CPython contemporary with
    the module (up to 3.7); [hash(None)] is a constant of the running
    interpreter, here the one later versions fix it to. *)
Inductive pynum : Type :=
| PyInt (z : Z)
| PyFloat (whole : Z).

Definition pynum_value (n : pynum) : Z :=
  match n with
  | PyInt z => z
  | PyFloat z => z
  end.

(** [hash(n)] for an int: reduction modulo the Mersenne prime 2^61 - 1,
    keeping the sign; -1 is reserved and replaced by -2. *)
Definition cpython_hash_int (z : Z) : Z :=
  let h := Z.sgn z * (Z.abs z mod (2 ^ 61 - 1)) in
  if h =? -1 then -2 else h.

Definition wrap64 (z : Z) : Z := z mod 2 ^ 64.

Definition signed64 (z : Z) : Z := if z <? 2 ^ 63 then z else z - 2 ^ 64.

(** The loop of the tuple hash: [x = (x ^ y) * mult] and
    [mult += 82520 + len + len], on unsigned 64-bit words, [len] being the
    number of items still to come. *)
Fixpoint cpython_tuplehash_loop (x mult : Z) (hashes : list Z) : Z :=
  match hashes with
  | [] => x
  | y :: rest =>
    let remaining := Z.of_nat (length rest) in
    cpython_tuplehash_loop (wrap64 (Z.lxor x (wrap64 y) * mult))
                           (wrap64 (mult + 82520 + remaining + remaining))
                           rest
  end.

Definition cpython_hash_tuple (hashes : list Z) : Z :=
  let x := wrap64 (cpython_tuplehash_loop 3430008 1000003 hashes + 97531) in
  if x =? 2 ^ 64 - 1 then -2 else signed64 x.

#[global] Instance pynum_builtins : Builtins pynum := {
  py_eq a b := pynum_value a =? pynum_value b;
  py_hash a := cpython_hash_int (pynum_value a);
  py_str a := match a with
              | PyInt z => pretty z
              | PyFloat z => pretty z +:+ ".0"
              end;
  hash_none := 4238894112;
  hash_int := cpython_hash_int;
  hash_tuple := cpython_hash_tuple
}.

(** ** The module beyond its own table *)

(** The classes reachable from a class through [__subclasses__()], in the
    order [__get_subclass] visits them: the class, then the tree of each
    subclass in turn. *)
Fixpoint class_tree (cls : pyclass) : list pyclass :=
  cls :: flat_map class_tree (cls_subclasses cls).

(** A class that binds [crs] in its own dictionary, as [Point] and every
    created class do. ([class_crs] reads the dictionary of the class and
    falls back on the default of [Point]; a class that left [crs] to a
    parent other than [Point] would inherit that parent's code.) *)
Definition defines_crs (cls : pyclass) : Prop :=
  is_Some (cls_dict cls !! "crs"%string).

(** The test [cls.crs == crs] of [__get_subclass]. *)
Definition has_crs (crs : Z) (cls : pyclass) : bool :=
  crsv_eqb (class_crs cls) (IntV crs).

(** The names the functions of the module read from the module scope, or
    through it from the built-ins. [setattr(this_module, name, ...)] under
    one of them would change what the code after it does. *)
Definition reserved_names : list string :=
  [ "Point"; "__all__"; "type"; "property"; "enumerate"; "setattr";
    "len"; "ValueError"; "map"; "str"; "tuple"; "hash";
    "AttributeError"; "TypeError"; "None"; "True"; "False" ]%string.

(** An attribute name without a leading underscore: not one of the names
    Python itself looks up in a class ([__new__], [__getitem__], ...). *)
Definition plain_name (s : string) : bool := negb (String.prefix "_" s).

(** A letter of the ASCII alphabet; a letter, a digit or an underscore. *)
Definition is_letter (c : Ascii.ascii) : bool :=
  let n := Ascii.nat_of_ascii c in
  ((65 <=? n) && (n <=? 90) || (97 <=? n) && (n <=? 122))%nat.

Definition is_name_char (c : Ascii.ascii) : bool :=
  let n := Ascii.nat_of_ascii c in
  (is_letter c || (48 <=? n) && (n <=? 57) || (n =? 95))%nat.

Fixpoint all_name_chars (s : string) : bool :=
  match s with
  | EmptyString => true
  | String c rest => is_name_char c && all_name_chars rest
  end.

(** A name written like an identifier that starts with a letter. Such a
    name has no leading underscore and no NUL character, so [type] and
    [setattr] accept it and Python looks up nothing of its own under it. *)
Definition identifier (s : string) : bool :=
  match s with
  | EmptyString => false
  | String c rest => is_letter c && all_name_chars rest
  end.

(** The tables the module can be given with the same outcome as its own:
    the entries have distinct names, so that every created class stays
    bound in the module (a class is kept alive by that binding alone, the
    list of subclasses holding weak references), and distinct codes; every
    name is an identifier and none is a name the module reads; the
    attribute names are identifiers and leave [crs] alone. *)
Definition table_ok (types : list (Z * string * list string)) : Prop :=
  NoDup (map (fun t => snd (fst t)) types) /\
  NoDup (map (fun t => fst (fst t)) types) /\
  Forall (fun t => identifier (snd (fst t)) = true /\
                   ~ In (snd (fst t)) reserved_names /\
                   ~ In "crs"%string (snd t) /\
                   Forall (fun field => identifier field = true) (snd t))
         types.

(** The module is written for its table to grow (new subclasses are added
    to the list): [Point] as [__create_point_types] leaves it for a given
    table, every created class being a subclass that is still alive (see
    [table_ok]). [Point] is [point_class_for __point_types]. *)
Definition point_class_for (types : list (Z * string * list string)) : pyclass :=
  PyClass "Point" {["crs"%string := AttrValue NoneV]} (__create_point_types types).

(** The classes bound in the module for a given table. *)
Definition module_scope_for (types : list (Z * string * list string)) : gmap string pyclass :=
  fold_left (fun m cls => <[cls_name cls := cls]> m)
            (__create_point_types types)
            {["Point"%string := point_class_for types]}.

(** [__all__] for a given table: it starts as [["Point"]] and each turn of
    the loop appends the name of the class it creates. *)
Definition all_for (types : list (Z * string * list string)) : list string :=
  fold_left (fun all '(_, name, _) => all ++ [name]) types ["Point"%string].

(** [__all__] once the module is imported. *)
Definition __all__ : list string := all_for __point_types.

(** ** Strings *)

Lemma string_app_cons (a : Ascii.ascii) (s t : string) :
  String a s +:+ t = String a (s +:+ t).
Proof. reflexivity. Qed.

Lemma string_app_assoc (s t u : string) : (s +:+ t) +:+ u = s +:+ (t +:+ u).
Proof.
  induction s as [|a s IH]; [reflexivity|].
  rewrite !string_app_cons, IH. reflexivity.
Qed.

Lemma string_app_length (s t : string) :
  String.length (s +:+ t) = (String.length s + String.length t)%nat.
Proof.
  induction s as [|a s IH]; [reflexivity|].
  rewrite string_app_cons. cbn. rewrite IH. reflexivity.
Qed.

Lemma string_app_inv_tail (s1 s2 t : string) : s1 +:+ t = s2 +:+ t -> s1 = s2.
Proof.
  revert s2. induction s1 as [|a s1 IH]; intros [|b s2] Heq.
  - reflexivity.
  - apply (f_equal String.length) in Heq.
    rewrite !string_app_length in Heq. cbn in Heq. lia.
  - apply (f_equal String.length) in Heq.
    rewrite !string_app_length in Heq. cbn in Heq. lia.
  - rewrite !string_app_cons in Heq. injection Heq as -> Heq.
    f_equal. apply IH. exact Heq.
Qed.

(** A number printed between a fixed prefix and a fixed suffix can be read
    back from the text. *)
Lemma fmt_d_framed_inj (prefix suffix : string) (m n : Z) :
  prefix +:+ fmt_d m +:+ suffix = prefix +:+ fmt_d n +:+ suffix -> m = n.
Proof.
  intros Heq. apply String.app_inj in Heq. apply string_app_inv_tail in Heq.
  apply pretty_Z_inj. exact Heq.
Qed.

(** ** Resolution of a CRS code to a class *)

(** A class without subclasses answers for its own code only. *)
Lemma get_subclass_leaf (name : string) (d : gmap string attr) (crs : Z) :
  __get_subclass (PyClass name d []) crs
  = if crsv_eqb (class_crs (PyClass name d [])) (IntV crs)
    then Some (PyClass name d []) else None.
Proof. reflexivity. Qed.

(** Over a class whose subclasses have no subclasses of their own, the
    recursive search is a linear search through these subclasses. *)
Lemma get_subclass_flat (name : string) (d : gmap string attr)
      (subs : list pyclass) (crs : Z) :
  Forall (fun s => cls_subclasses s = []) subs ->
  __get_subclass (PyClass name d subs) crs
  = if crsv_eqb (class_crs (PyClass name d subs)) (IntV crs)
    then Some (PyClass name d subs)
    else List.find (fun s => crsv_eqb (class_crs s) (IntV crs)) subs.
Proof.
  intros Hleaf. cbn [__get_subclass cls_subclasses].
  destruct (crsv_eqb _ _); [reflexivity|].
  induction Hleaf as [|s subs Hs _ IH]; [reflexivity|].
  cbn [List.find]. rewrite <- IH.
  destruct s as [n' d' subs']. cbn in Hs. subst subs'.
  rewrite get_subclass_leaf. destruct (crsv_eqb _ _); reflexivity.
Qed.

(** The codes of the classes created from the table. *)
Lemma created_classes_crs :
  map class_crs (__create_point_types __point_types)
  = [IntV 7203; IntV 9157; IntV 4326; IntV 4979].
Proof. reflexivity. Qed.

Lemma created_classes_leaves :
  Forall (fun s => cls_subclasses s = []) (__create_point_types __point_types).
Proof. repeat constructor. Qed.

(** The search through the created classes, as a search of the code among
    their codes. *)
Lemma find_by_crs (classes : list pyclass) (crs : Z) :
  List.find (fun s => crsv_eqb (class_crs s) (IntV crs)) classes
  = match List.find (fun '(v, _) => crsv_eqb v (IntV crs))
                    (zip (map class_crs classes) classes) with
    | Some (_, s) => Some s
    | None => None
    end.
Proof.
  induction classes as [|s classes IH]; [reflexivity|].
  cbn. destruct (crsv_eqb _ _); [reflexivity|exact IH].
Qed.

(** [Point.__get_subclass(crs)] for an integer code: the class created for
    that code, if the table has it. *)
Lemma get_subclass_Point (crs : Z) :
  __get_subclass Point crs
  = if crs =? 7203 then Some (make_type 7203 "CartesianPoint" ["x"; "y"])
    else if crs =? 9157 then Some (make_type 9157 "CartesianPoint3D" ["x"; "y"; "z"])
    else if crs =? 4326 then Some (make_type 4326 "WGS84Point" ["longitude"; "latitude"])
    else if crs =? 4979
         then Some (make_type 4979 "WGS84Point3D" ["longitude"; "latitude"; "height"])
    else None.
Proof.
  unfold Point. rewrite get_subclass_flat by exact created_classes_leaves.
  change (crsv_eqb (class_crs _) (IntV crs)) with false at 1. cbv iota.
  rewrite find_by_crs, created_classes_crs.
  cbn [__create_point_types __point_types map zip zip_with List.find crsv_eqb].
  rewrite !(Z.eqb_sym _ crs).
  repeat (destruct (crs =? _); [reflexivity|]). reflexivity.
Qed.

(** ** The factory *)

Section Factory.
Context {A : Type} `{Builtins A}.

(** The test [2 <= len(coordinates) <= 3]. *)
Lemma dimension_check_iff (coordinates : list A) :
  (2 <=? len coordinates) && (len coordinates <=? 3) = true
  <-> (length coordinates = 2 \/ length coordinates = 3)%nat.
Proof.
  unfold len. rewrite andb_true_iff, !Z.leb_le. lia.
Qed.

(** With a class found and the count accepted, [hydrate] builds the
    instance of that class and tags it. *)
Lemma hydrate_found (cls point_class : pyclass) (crs : Z) (coordinates : list A) :
  __get_subclass cls crs = Some point_class ->
  (length coordinates = 2 \/ length coordinates = 3)%nat ->
  hydrate cls crs coordinates
  = Ok (MkPoint point_class {["crs"%string := IntV crs]} coordinates).
Proof.
  intros Hcls Hlen. unfold hydrate. rewrite Hcls.
  apply dimension_check_iff in Hlen. rewrite Hlen. reflexivity.
Qed.

(** C1. For every CRS code of the table and every list of 2 or 3
    coordinates, [hydrate] returns an instance of the class created for
    that code (the one bound to the entry's name in the module), whose
    [crs] is the code and whose items are the coordinates as given. The
    number of coordinates is not compared with the number of attribute
    names of the entry. *)
Theorem hydrate_registered (c : Z) (coords : list A) :
  In c registered_crs ->
  (length coords = 2 \/ length coords = 3)%nat ->
  exists (name : string) (fields : list string) (v : point A),
    In (c, name, fields) __point_types /\
    hydrate Point c coords = Ok v /\
    pt_class v = make_type c name fields /\
    module_scope !! name = Some (pt_class v) /\
    class_crs (pt_class v) = IntV c /\
    point_crs v = IntV c /\
    pt_items v = coords.
Proof.
  intros Hc Hlen.
  assert (Hcases : c = 7203 \/ c = 9157 \/ c = 4326 \/ c = 4979)
    by (cbn in Hc; intuition congruence).
  destruct Hcases as [-> | [-> | [-> | ->]]].
  - exists "CartesianPoint"%string, ["x"; "y"]%string. eexists.
    split; [cbn; tauto|].
    split; [apply hydrate_found; [rewrite get_subclass_Point|]; [reflexivity|exact Hlen]|].
    repeat split; reflexivity.
  - exists "CartesianPoint3D"%string, ["x"; "y"; "z"]%string. eexists.
    split; [cbn; tauto|].
    split; [apply hydrate_found; [rewrite get_subclass_Point|]; [reflexivity|exact Hlen]|].
    repeat split; reflexivity.
  - exists "WGS84Point"%string, ["longitude"; "latitude"]%string. eexists.
    split; [cbn; tauto|].
    split; [apply hydrate_found; [rewrite get_subclass_Point|]; [reflexivity|exact Hlen]|].
    repeat split; reflexivity.
  - exists "WGS84Point3D"%string, ["longitude"; "latitude"; "height"]%string. eexists.
    split; [cbn; tauto|].
    split; [apply hydrate_found; [rewrite get_subclass_Point|]; [reflexivity|exact Hlen]|].
    repeat split; reflexivity.
Qed.

(** A code outside the table resolves to no class. *)
Lemma get_subclass_unregistered (c : Z) :
  ~ In c registered_crs -> __get_subclass Point c = None.
Proof.
  intros Hc. rewrite get_subclass_Point.
  destruct (Z.eqb_spec c 7203) as [->|_]; [exfalso; apply Hc; cbn; tauto|].
  destruct (Z.eqb_spec c 9157) as [->|_]; [exfalso; apply Hc; cbn; tauto|].
  destruct (Z.eqb_spec c 4326) as [->|_]; [exfalso; apply Hc; cbn; tauto|].
  destruct (Z.eqb_spec c 4979) as [->|_]; [exfalso; apply Hc; cbn; tauto|].
  reflexivity.
Qed.

(** C2. For every integer CRS code outside the table and every list of
    coordinates, of whatever length, [hydrate] raises the [ValueError]
    whose message names the code: no point is built, and the count of
    coordinates is not looked at. *)
Theorem hydrate_unregistered (c : Z) (coords : list A) :
  ~ In c registered_crs ->
  hydrate Point c coords
  = Raise (ValueError ("CRS " +:+ fmt_d c +:+ " not supported")) /\
  (forall c' : Z,
      "CRS " +:+ fmt_d c' +:+ " not supported" = "CRS " +:+ fmt_d c +:+ " not supported" ->
      c' = c).
Proof.
  intros Hc. split.
  - unfold hydrate. rewrite (get_subclass_unregistered c Hc). reflexivity.
  - intros c'. apply fmt_d_framed_inj.
Qed.

(** C3. For every CRS code of the table and every list of coordinates
    whose length is below 2 or above 3, [hydrate] raises the [ValueError]
    whose message names that length, and returns no point. *)
Theorem hydrate_bad_dimension (c : Z) (coords : list A) :
  In c registered_crs ->
  (length coords < 2 \/ 3 < length coords)%nat ->
  hydrate Point c coords
  = Raise (ValueError (fmt_d (Z.of_nat (length coords))
                         +:+ "-dimensional Point values are not supported")) /\
  (forall n : nat,
      fmt_d (Z.of_nat n) +:+ "-dimensional Point values are not supported"
      = fmt_d (Z.of_nat (length coords)) +:+ "-dimensional Point values are not supported" ->
      n = length coords).
Proof.
  intros Hc Hlen. split.
  - unfold hydrate.
    assert (Hcheck : (2 <=? len coords) && (len coords <=? 3) = false).
    { apply not_true_is_false. rewrite dimension_check_iff. lia. }
    rewrite get_subclass_Point. cbn in Hc.
    destruct Hc as [<- | [<- | [<- | [<- | []]]]]; cbn [Z.eqb Pos.eqb];
      rewrite Hcheck; reflexivity.
  - intros n Heq. apply Nat2Z.inj. apply (fmt_d_framed_inj "" _ _ _ Heq).
Qed.

End Factory.

(** ** Equality and hashing *)

Lemma crsv_eqb_eq (a b : crsv) : crsv_eqb a b = true <-> a = b.
Proof.
  destruct a as [|x], b as [|y]; cbn; try (split; congruence).
  rewrite Z.eqb_eq. split; congruence.
Qed.

Lemma crsv_eqb_refl (a : crsv) : crsv_eqb a a = true.
Proof. apply crsv_eqb_eq. reflexivity. Qed.

Section Equality.
Context {A : Type} `{Builtins A}.

(** Tuple comparison holds exactly of lists of the same length whose items
    are pairwise [==]. *)
Lemma tuple_eqb_Forall2 (s t : list A) :
  tuple_eqb s t = true <-> Forall2 (fun a b => py_eq a b = true) s t.
Proof.
  revert t. induction s as [|a s IH]; intros [|b t]; cbn.
  - split; [constructor|reflexivity].
  - split; [discriminate|inversion 1].
  - split; [discriminate|inversion 1].
  - rewrite andb_true_iff, IH. split.
    + intros [Hab Hst]. constructor; assumption.
    + inversion 1; subst. split; assumption.
Qed.

(** Against coordinate values the comparison of tuples raises nothing: it
    is the item-wise test. *)
Lemma tuple_eq_coordinates (s t : list A) :
  tuple_eq s (map Coordinate t) = Ok (tuple_eqb s t).
Proof.
  revert t. induction s as [|a s IH]; intros [|b t]; try reflexivity.
  cbn. destruct (py_eq a b); [apply IH|reflexivity].
Qed.

(** The comparison of tuples answers true exactly when the two have the
    same length and every comparison of a pair of items answers true. *)
Lemma tuple_eq_true_iff (s : list A) (t : list (item A)) :
  tuple_eq s t = Ok true <-> Forall2 (fun a i => item_eq a i = Ok true) s t.
Proof.
  revert t. induction s as [|a s IH]; intros [|i t]; cbn.
  - split; [constructor|reflexivity].
  - split; [discriminate|inversion 1].
  - split; [discriminate|inversion 1].
  - destruct (item_eq a i) as [[|]|e] eqn:Ei; cbn.
    + rewrite IH. split.
      * intros Hst. constructor; assumption.
      * inversion 1; subst. assumption.
    + split; [discriminate|]. inversion 1; subst. congruence.
    + split; [discriminate|]. inversion 1; subst. congruence.
Qed.

(** Between two points no exception arises: the comparison is the
    conjunction of the two tests. *)
Lemma eq_points (p q : point A) :
  __eq__ p (OPoint q)
  = Ok (crsv_eqb (point_crs p) (point_crs q) && tuple_eqb (pt_items p) (pt_items q)).
Proof.
  unfold __eq__. cbn [getattr_crs py_tuple bind crs_eq].
  destruct (crsv_eqb _ _); [|reflexivity].
  rewrite tuple_eq_coordinates. reflexivity.
Qed.

Lemma eq_points_iff (p q : point A) :
  __eq__ p (OPoint q) = Ok true
  <-> point_crs p = point_crs q
      /\ Forall2 (fun a b => py_eq a b = true) (pt_items p) (pt_items q).
Proof.
  rewrite eq_points, <- crsv_eqb_eq, <- tuple_eqb_Forall2, <- andb_true_iff.
  split; [intros [= ->]; reflexivity|intros ->; reflexivity].
Qed.

(** The value [other.crs] and [tuple(other)] produce decide the comparison
    with a value that is not a point. *)
Lemma eq_lacking_crs (p : point A) (x : pyobj A) :
  getattr_crs x = Raise AttributeError -> __eq__ p x = Ok false.
Proof. intros Hx. unfold __eq__. rewrite Hx. reflexivity. Qed.

Section Laws.
Context `{!BuiltinLaws A}.

Lemma tuple_eqb_refl (s : list A) : tuple_eqb s s = true.
Proof.
  induction s as [|a s IH]; [reflexivity|].
  cbn. rewrite py_eq_refl, IH. reflexivity.
Qed.

Lemma tuple_eqb_sym (s t : list A) : tuple_eqb s t = true -> tuple_eqb t s = true.
Proof.
  rewrite !tuple_eqb_Forall2. induction 1; constructor; auto using py_eq_sym.
Qed.

Lemma tuple_eqb_trans (s t u : list A) :
  tuple_eqb s t = true -> tuple_eqb t u = true -> tuple_eqb s u = true.
Proof.
  rewrite !tuple_eqb_Forall2. intros Hst. revert u.
  induction Hst as [|a b s t Hab _ IH]; intros u Htu; inversion Htu; subst;
    constructor; eauto using py_eq_trans.
Qed.

(** Item-wise equal tuples have the same list of item hashes. *)
Lemma tuple_eqb_hashes (s t : list A) :
  tuple_eqb s t = true -> map py_hash s = map py_hash t.
Proof.
  rewrite tuple_eqb_Forall2. induction 1 as [|a b s t Hab _ IH]; [reflexivity|].
  cbn. rewrite (py_hash_eq a b Hab), IH. reflexivity.
Qed.

End Laws.
End Equality.

(** C4. Two points are equal exactly when their [crs] are equal and their
    items are equal one by one; the comparison never raises. Given that
    [==] on the items is an equivalence, equality of points is reflexive,
    symmetric and transitive. The point hydrated from 7203 and two
    coordinates equals a second point hydrated from the same arguments, and
    differs from the one hydrated from 4326 and the same coordinates. *)
Theorem eq_points_spec (A : Type) (B : Builtins A) (L : BuiltinLaws A) :
  (forall p q : point A,
      __eq__ p (OPoint q) = Ok true
      <-> point_crs p = point_crs q
          /\ Forall2 (fun a b => py_eq a b = true) (pt_items p) (pt_items q)) /\
  (forall p q : point A,
      __eq__ p (OPoint q) = Ok true \/ __eq__ p (OPoint q) = Ok false) /\
  (forall p : point A, __eq__ p (OPoint p) = Ok true) /\
  (forall p q : point A,
      __eq__ p (OPoint q) = Ok true -> __eq__ q (OPoint p) = Ok true) /\
  (forall p q r : point A,
      __eq__ p (OPoint q) = Ok true -> __eq__ q (OPoint r) = Ok true ->
      __eq__ p (OPoint r) = Ok true) /\
  (forall a b : A,
      exists p q r : point A,
        hydrate Point 7203 [a; b] = Ok p /\
        hydrate Point 7203 [a; b] = Ok q /\
        hydrate Point 4326 [a; b] = Ok r /\
        __eq__ p (OPoint q) = Ok true /\
        __eq__ p (OPoint r) = Ok false).
Proof.
  split; [exact eq_points_iff|].
  split; [intros p q; rewrite eq_points; destruct (_ && _); auto|].
  split.
  { intros p. rewrite eq_points, crsv_eqb_refl, tuple_eqb_refl. reflexivity. }
  split.
  { intros p q. rewrite !eq_points. intros [= Hpq]. f_equal.
    apply andb_true_iff in Hpq as [Hc Ht]. apply crsv_eqb_eq in Hc.
    rewrite Hc, crsv_eqb_refl, (tuple_eqb_sym _ _ Ht). reflexivity. }
  split.
  { intros p q r. rewrite !eq_points. intros [= Hpq] [= Hqr]. f_equal.
    apply andb_true_iff in Hpq as [Hc1 Ht1]. apply andb_true_iff in Hqr as [Hc2 Ht2].
    apply crsv_eqb_eq in Hc1, Hc2.
    rewrite Hc1, Hc2, crsv_eqb_refl, (tuple_eqb_trans _ _ _ Ht1 Ht2). reflexivity. }
  intros a b. do 3 eexists.
  split; [reflexivity|]. split; [reflexivity|]. split; [reflexivity|].
  rewrite !eq_points. split; [|reflexivity].
  cbn [pt_items]. rewrite tuple_eqb_refl. reflexivity.
Qed.

(** C5. Equal points have equal hashes, given that equal items have equal
    hashes; and the hash of a point is determined by its [crs] and its
    items alone, whatever its class. *)
Theorem hash_consistent (A : Type) (B : Builtins A) (L : BuiltinLaws A) (p q : point A) :
  __eq__ p (OPoint q) = Ok true ->
  __hash__ p = __hash__ q /\
  (forall p' : point A,
      point_crs p' = point_crs p -> pt_items p' = pt_items p ->
      __hash__ p' = __hash__ p).
Proof.
  rewrite eq_points. intros [= Hpq].
  apply andb_true_iff in Hpq as [Hc Ht]. apply crsv_eqb_eq in Hc.
  split.
  - unfold __hash__. rewrite Hc, (tuple_eqb_hashes _ _ Ht). reflexivity.
  - intros p' Hc' Hi'. unfold __hash__. rewrite Hc', Hi'. reflexivity.
Qed.

(** C6, as amended. For every point [p] and every value [x] that is not a
    point and whose comparisons answer with Booleans, such that [x.crs],
    the comparison of the two [crs], [tuple(x)] and the comparison of the
    two tuples raise nothing but [AttributeError] or [TypeError], [p == x]
    raises no error; it is true exactly when [x] has an attribute [crs]
    that compares equal to that of [p] and iterates to items that compare
    equal, one by one, to those of [p], and it is false for every value
    without an attribute [crs], such as an integer or a plain list of
    coordinates. *)
Theorem eq_non_point (A : Type) (B : Builtins A) (p : point A) (x : pyobj A) :
  is_point x = false ->
  raises_only_caught (getattr_crs x) ->
  (forall c : crs_attr,
      getattr_crs x = Ok c -> raises_only_caught (crs_eq (point_crs p) c)) ->
  raises_only_caught (py_tuple x) ->
  (forall items : list (item A),
      py_tuple x = Ok items -> raises_only_caught (tuple_eq (pt_items p) items)) ->
  exists b : bool,
    __eq__ p x = Ok b /\
    (b = true <->
     exists (c : crs_attr) (items : list (item A)),
       getattr_crs x = Ok c /\ crs_eq (point_crs p) c = Ok true /\
       py_tuple x = Ok items /\
       Forall2 (fun a i => item_eq a i = Ok true) (pt_items p) items) /\
    (getattr_crs x = Raise AttributeError -> b = false) /\
    (forall z : Z, __eq__ p (OInt z) = Ok false) /\
    (forall l : list A, __eq__ p (OList l) = Ok false).
Proof.
  intros _ Hcrs Hcmp Htuple Hitems. unfold __eq__.
  destruct (getattr_crs x) as [c|e] eqn:Ecrs; cbn in Hcrs |- *.
  - specialize (Hcmp c eq_refl).
    destruct (crs_eq (point_crs p) c) as [[|]|e] eqn:Ecmp; cbn in Hcmp |- *.
    + destruct (py_tuple x) as [items|e] eqn:Etuple; cbn in Htuple |- *.
      * specialize (Hitems items eq_refl).
        destruct (tuple_eq (pt_items p) items) as [b|e] eqn:Eitems; cbn in Hitems |- *.
        -- exists b. split; [reflexivity|].
           split; [|split; [discriminate|split; reflexivity]].
           split.
           ++ intros ->. exists c, items. rewrite <- tuple_eq_true_iff. auto.
           ++ intros (c' & items' & [= <-] & _ & [= <-] & Hall).
              apply tuple_eq_true_iff in Hall. congruence.
        -- rewrite Hitems. exists false. split; [reflexivity|].
           split; [|split; [discriminate|split; reflexivity]].
           split; [discriminate|].
           intros (c' & items' & _ & _ & [= <-] & Hall).
           apply tuple_eq_true_iff in Hall. congruence.
      * rewrite Htuple. exists false. split; [reflexivity|].
        split; [|split; [discriminate|split; reflexivity]].
        split; [discriminate|]. intros (c' & items & _ & _ & Hitems' & _). discriminate.
    + exists false. split; [reflexivity|].
      split; [|split; [discriminate|split; reflexivity]].
      split; [discriminate|]. intros (c' & items & [= <-] & Hc & _). congruence.
    + rewrite Hcmp. exists false. split; [reflexivity|].
      split; [|split; [discriminate|split; reflexivity]].
      split; [discriminate|]. intros (c' & items & [= <-] & Hc & _). congruence.
  - rewrite Hcrs. exists false. split; [reflexivity|].
    split; [|split; [reflexivity|split; reflexivity]].
    split; [discriminate|]. intros (c & items & Hc & _). discriminate.
Qed.

(** ** Display *)

(** C7. The text of a point is [POINT(], the items in stored order, each
    as [str] prints it, with one space between two items, and [)]. The
    point hydrated from 7203 and the floats 1.0 and 2.0 reads
    [POINT(1.0 2.0)]; the one hydrated from 9157 and the ints 1, 2 and 3
    reads [POINT(1 2 3)]. *)
Theorem repr_format :
  (forall (A : Type) (B : Builtins A) (p : point A),
      __repr__ p = "POINT(" +:+ join_space (map py_str (pt_items p)) +:+ ")") /\
  (forall (A : Type) (B : Builtins A) (cls : pyclass) (d : gmap string crsv) (a b : A),
      __repr__ (MkPoint cls d [a; b])
      = "POINT(" +:+ py_str a +:+ " " +:+ py_str b +:+ ")") /\
  (forall (A : Type) (B : Builtins A) (cls : pyclass) (d : gmap string crsv) (a b c : A),
      __repr__ (MkPoint cls d [a; b; c])
      = "POINT(" +:+ py_str a +:+ " " +:+ py_str b +:+ " " +:+ py_str c +:+ ")") /\
  (exists p : point pynum,
      hydrate Point 7203 [PyFloat 1; PyFloat 2] = Ok p /\
      __repr__ p = "POINT(1.0 2.0)"%string) /\
  (exists p : point pynum,
      hydrate Point 9157 [PyInt 1; PyInt 2; PyInt 3] = Ok p /\
      __repr__ p = "POINT(1 2 3)"%string).
Proof.
  split; [reflexivity|].
  split.
  { intros A B cls d a b. unfold __repr__, join_space. cbn [pt_items map String.concat].
    rewrite !string_app_assoc. reflexivity. }
  split.
  { intros A B cls d a b c. unfold __repr__, join_space. cbn [pt_items map String.concat].
    rewrite !string_app_assoc. reflexivity. }
  split; eexists; (split; [reflexivity|reflexivity]).
Qed.

(** ** Named accessors and the number of coordinates *)

Section Accessors.
Context {A : Type} `{Builtins A}.

(** A successful [hydrate] found a class and accepted the count. *)
Lemma hydrate_inv (cls : pyclass) (crs : Z) (coordinates : list A) (p : point A) :
  hydrate cls crs coordinates = Ok p ->
  exists point_class : pyclass,
    __get_subclass cls crs = Some point_class /\
    (length coordinates = 2 \/ length coordinates = 3)%nat /\
    p = MkPoint point_class {["crs"%string := IntV crs]} coordinates.
Proof.
  unfold hydrate. destruct (__get_subclass cls crs) as [point_class|]; [|discriminate].
  destruct (_ && _) eqn:Hcheck; [|discriminate].
  intros [= <-]. exists point_class.
  apply dimension_check_iff in Hcheck. auto.
Qed.

(** The class [Point.__get_subclass] finds for an entry of the table. *)
Lemma get_subclass_entry (c : Z) (name : string) (fields : list string) :
  In (c, name, fields) __point_types ->
  __get_subclass Point c = Some (make_type c name fields).
Proof.
  intros Hin. rewrite get_subclass_Point. cbn in Hin.
  destruct Hin as [[= <- <- <-] | [[= <- <- <-] | [[= <- <- <-] | [[= <- <- <-] | []]]]];
    reflexivity.
Qed.

(** In the class created for an entry, the attribute name at position [i]
    is bound to the property that reads index [i]. *)
Lemma attributes_entry (c : Z) (name : string) (fields : list string)
      (i : nat) (label : string) :
  In (c, name, fields) __point_types ->
  fields !! i = Some label ->
  cls_dict (make_type c name fields) !! label = Some (AttrProperty i).
Proof.
  intros Hin Hlabel. cbn in Hin.
  destruct Hin as [[= <- <- <-] | [[= <- <- <-] | [[= <- <- <-] | [[= <- <- <-] | []]]]];
    destruct i as [|[|[|i]]]; cbn in Hlabel; try discriminate;
    injection Hlabel as <-; reflexivity.
Qed.

(** A named accessor is the indexing of the tuple, with its outcome. *)
Lemma accessor_is_getitem (c : Z) (name : string) (fields : list string)
      (i : nat) (label : string) (coords : list A) (p : point A) :
  In (c, name, fields) __point_types ->
  fields !! i = Some label ->
  hydrate Point c coords = Ok p ->
  getattr_property p label = tuple_getitem coords i.
Proof.
  intros Hin Hlabel Hp.
  apply hydrate_inv in Hp as (point_class & Hcls & _ & ->).
  rewrite (get_subclass_entry _ _ _ Hin) in Hcls. injection Hcls as <-.
  unfold getattr_property. cbn [pt_class pt_items].
  rewrite (attributes_entry _ _ _ _ _ Hin Hlabel). reflexivity.
Qed.

End Accessors.

(** C8, as amended. For every entry of the table, every point hydrated
    from its code and every attribute name of the entry at a position [i]
    below the number of coordinates of the point, the accessor of that name
    returns the coordinate stored at index [i]. So the point hydrated from
    7203 and 3, 4 has [x] 3 and [y] 4, and the one hydrated from 4979 and
    1, 2, 3 has [longitude] 1, [latitude] 2 and [height] 3. *)
Theorem accessor_projection :
  (forall (A : Type) (B : Builtins A) (c : Z) (name : string) (fields : list string)
          (i : nat) (label : string) (coords : list A) (p : point A),
      In (c, name, fields) __point_types ->
      fields !! i = Some label ->
      hydrate Point c coords = Ok p ->
      (i < length coords)%nat ->
      exists v : A, pt_items p !! i = Some v /\ getattr_property p label = Ok v) /\
  (exists p : point pynum,
      hydrate Point 7203 [PyInt 3; PyInt 4] = Ok p /\
      getattr_property p "x" = Ok (PyInt 3) /\
      getattr_property p "y" = Ok (PyInt 4)) /\
  (exists p : point pynum,
      hydrate Point 4979 [PyInt 1; PyInt 2; PyInt 3] = Ok p /\
      getattr_property p "longitude" = Ok (PyInt 1) /\
      getattr_property p "latitude" = Ok (PyInt 2) /\
      getattr_property p "height" = Ok (PyInt 3)).
Proof.
  split.
  { intros A B c name fields i label coords p Hin Hlabel Hp Hi.
    rewrite (accessor_is_getitem _ _ _ _ _ _ _ Hin Hlabel Hp).
    apply hydrate_inv in Hp as (point_class & _ & _ & ->). cbn [pt_items].
    destruct (lookup_lt_is_Some_2 coords i Hi) as [v Hv].
    exists v. unfold tuple_getitem. rewrite Hv. auto. }
  split; eexists; repeat split; reflexivity.
Qed.

(** C9, as amended. Every point [hydrate] returns, from whatever class it
    is called on, has 2 or 3 coordinates; [Point.__new__] stores the items
    of the iterable as they come, whatever their number. *)
Theorem hydrate_coordinate_count (A : Type) (B : Builtins A)
        (cls : pyclass) (c : Z) (coords : list A) (p : point A) :
  hydrate cls c coords = Ok p ->
  (length (pt_items p) = 2 \/ length (pt_items p) = 3)%nat /\
  (forall (cls' : pyclass) (iterable : list A),
      pt_items (__new__ cls' iterable) = iterable).
Proof.
  intros Hp. apply hydrate_inv in Hp as (point_class & _ & Hlen & ->).
  split; [exact Hlen|reflexivity].
Qed.

(** C10. For each entry of the table with three attribute names (those of
    9157 and 4979) and every list of two coordinates, [hydrate] returns an
    instance of the class of that entry, and the accessor of the third
    name indexes the tuple at 2 and raises [IndexError]. *)
Theorem third_accessor_out_of_range (A : Type) (B : Builtins A)
        (c : Z) (name first second third : string) (coords : list A) :
  In (c, name, [first; second; third]) __point_types ->
  length coords = 2%nat ->
  (c = 9157 /\ third = "z"%string \/ c = 4979 /\ third = "height"%string) /\
  exists p : point A,
    hydrate Point c coords = Ok p /\
    pt_class p = make_type c name [first; second; third] /\
    pt_items p = coords /\
    getattr_property p third = tuple_getitem coords 2 /\
    getattr_property p third = Raise (IndexError "tuple index out of range").
Proof.
  intros Hin Hlen. split.
  { cbn in Hin.
    destruct Hin as [Hin | [Hin | [Hin | [Hin | []]]]]; try discriminate Hin;
      injection Hin as <- <- <- <- <-; auto. }
  eexists. split.
  { apply hydrate_found; [exact (get_subclass_entry _ _ _ Hin)|auto]. }
  split; [reflexivity|]. split; [reflexivity|].
  assert (Hget : getattr_property
                   (MkPoint (make_type c name [first; second; third])
                            {["crs"%string := IntV c]} coords) third
                 = tuple_getitem coords 2).
  { unfold getattr_property. cbn [pt_class pt_items].
    rewrite (attributes_entry c name [first; second; third] 2 third Hin eq_refl).
    reflexivity. }
  split; [exact Hget|]. rewrite Hget.
  destruct coords as [|a [|b [|d coords]]]; try discriminate Hlen. reflexivity.
Qed.

(** ** The concrete coordinate type obeys the laws *)

Lemma pynum_laws : BuiltinLaws pynum.
Proof.
  split; cbn.
  - intros a. apply Z.eqb_refl.
  - intros a b. rewrite Z.eqb_sym. auto.
  - intros a b c. rewrite !Z.eqb_eq. congruence.
  - intros a b. rewrite Z.eqb_eq. intros ->. reflexivity.
Qed.

#[global] Existing Instance pynum_laws.

(** ** The statements at concrete inputs *)

(** Three coordinates under the code of a class with two attribute names. *)
Lemma hydrate_registered_witness :
  In 7203 registered_crs /\
  (length [PyInt 1; PyInt 2; PyInt 3] = 2 \/ length [PyInt 1; PyInt 2; PyInt 3] = 3)%nat /\
  exists (name : string) (fields : list string) (v : point pynum),
    In (7203, name, fields) __point_types /\
    hydrate Point 7203 [PyInt 1; PyInt 2; PyInt 3] = Ok v /\
    pt_class v = make_type 7203 name fields /\
    module_scope !! name = Some (pt_class v) /\
    class_crs (pt_class v) = IntV 7203 /\
    point_crs v = IntV 7203 /\
    pt_items v = [PyInt 1; PyInt 2; PyInt 3].
Proof.
  split; [cbn; tauto|]. split; [right; reflexivity|].
  apply (hydrate_registered (A:=pynum) 7203 [PyInt 1; PyInt 2; PyInt 3]).
  - cbn. tauto.
  - right. reflexivity.
Defined.

(** An unknown code with a single coordinate: the code is what is reported. *)
Lemma hydrate_unregistered_witness :
  ~ In 1234 registered_crs /\
  hydrate Point 1234 [PyInt 1] = Raise (ValueError "CRS 1234 not supported").
Proof.
  assert (Hc : ~ In 1234 registered_crs) by (cbn; lia).
  split; [exact Hc|].
  exact (proj1 (hydrate_unregistered (A:=pynum) 1234 [PyInt 1] Hc)).
Defined.

Lemma hydrate_bad_dimension_witness :
  In 4979 registered_crs /\
  (length [PyInt 1] < 2 \/ 3 < length [PyInt 1])%nat /\
  hydrate Point 4979 [PyInt 1]
  = Raise (ValueError "1-dimensional Point values are not supported").
Proof.
  assert (Hc : In 4979 registered_crs) by (cbn; tauto).
  assert (Hlen : (length [PyInt 1] < 2 \/ 3 < length [PyInt 1])%nat) by (cbn; lia).
  split; [exact Hc|]. split; [exact Hlen|].
  exact (proj1 (hydrate_bad_dimension (A:=pynum) 4979 [PyInt 1] Hc Hlen)).
Defined.

(** The two comparisons of the description, on the ints 1 and 2. *)
Lemma eq_points_spec_witness :
  exists p q r : point pynum,
    hydrate Point 7203 [PyInt 1; PyInt 2] = Ok p /\
    hydrate Point 7203 [PyInt 1; PyInt 2] = Ok q /\
    hydrate Point 4326 [PyInt 1; PyInt 2] = Ok r /\
    __eq__ p (OPoint q) = Ok true /\
    __eq__ p (OPoint r) = Ok false.
Proof.
  exact (proj2 (proj2 (proj2 (proj2 (proj2
           (eq_points_spec pynum pynum_builtins pynum_laws)))))
           (PyInt 1) (PyInt 2)).
Defined.

(** An int and a float of the same value are equal items with equal
    hashes: the two points below are equal and hash alike. *)
Lemma hash_consistent_witness :
  exists p q : point pynum,
    hydrate Point 7203 [PyInt 1; PyFloat 2] = Ok p /\
    hydrate Point 7203 [PyFloat 1; PyInt 2] = Ok q /\
    __eq__ p (OPoint q) = Ok true /\
    __hash__ p = __hash__ q.
Proof.
  do 2 eexists. split; [reflexivity|]. split; [reflexivity|].
  split; [reflexivity|].
  refine (proj1 (hash_consistent pynum pynum_builtins pynum_laws _ _ _)).
  reflexivity.
Defined.

(** C6, as first stated, fails: an object of a class unrelated to [Point]
    that has [crs] 7203 and iterates to 1, 2 is equal to the point hydrated
    from 7203 and 1, 2; an object whose [crs] raises another exception
    makes the comparison raise it; and so does an object whose [crs] is a
    value whose own comparison raises. *)
Lemma eq_non_point_counterexample :
  exists (p : point pynum) (x y z : pyobj pynum),
    hydrate Point 7203 [PyInt 1; PyInt 2] = Ok p /\
    x = OForeign (Ok (CrsPlain (IntV 7203)))
                 (Ok [Coordinate (PyInt 1); Coordinate (PyInt 2)]) /\
    y = OForeign (Raise (OtherError "ZeroDivisionError")) (Raise TypeError) /\
    z = OForeign (Ok (CrsObject (fun _ => Raise (OtherError "ZeroDivisionError"))))
                 (Ok []) /\
    is_point x = false /\
    is_point y = false /\
    is_point z = false /\
    __eq__ p x = Ok true /\
    __eq__ p y = Raise (OtherError "ZeroDivisionError") /\
    __eq__ p z = Raise (OtherError "ZeroDivisionError").
Proof.
  do 4 eexists. split; [reflexivity|]. split; [reflexivity|]. split; [reflexivity|].
  split; [reflexivity|]. repeat split; reflexivity.
Qed.

(** A plain list of the same coordinates is not equal to the point. *)
Lemma eq_non_point_witness :
  exists p : point pynum,
    hydrate Point 7203 [PyInt 1; PyInt 2] = Ok p /\
    is_point (OList [PyInt 1; PyInt 2]) = false /\
    exists b : bool,
      __eq__ p (OList [PyInt 1; PyInt 2]) = Ok b /\ b = false.
Proof.
  eexists. split; [reflexivity|]. split; [reflexivity|].
  destruct (eq_non_point pynum pynum_builtins
              (MkPoint (make_type 7203 "CartesianPoint" ["x"; "y"])
                       {["crs"%string := IntV 7203]} [PyInt 1; PyInt 2])
              (OList [PyInt 1; PyInt 2]))
    as (b & Hb & _ & Hfalse & _).
  - reflexivity.
  - reflexivity.
  - intros c Hc. discriminate Hc.
  - exact I.
  - intros items [= <-]. exact I.
  - exists b. split; [exact Hb|]. apply Hfalse. reflexivity.
Defined.

(** C8, as first stated, fails: the point hydrated from 9157 and two
    coordinates has no coordinate at index 2, and its accessor [z], the
    attribute name at position 2, raises. *)
Lemma accessor_projection_counterexample :
  exists p : point pynum,
    In (9157, "CartesianPoint3D"%string, ["x"; "y"; "z"]%string) __point_types /\
    (["x"; "y"; "z"]%string : list string) !! 2%nat = Some "z"%string /\
    hydrate Point 9157 [PyInt 1; PyInt 2] = Ok p /\
    pt_items p !! 2%nat = None /\
    getattr_property p "z" = Raise (IndexError "tuple index out of range").
Proof.
  eexists. split; [cbn; tauto|]. repeat split; reflexivity.
Qed.

(** The same point: [y], at position 1, is below the count. *)
Lemma accessor_projection_witness :
  In (9157, "CartesianPoint3D"%string, ["x"; "y"; "z"]%string) __point_types /\
  (["x"; "y"; "z"]%string : list string) !! 1%nat = Some "y"%string /\
  (1 < length [PyInt 1; PyInt 2])%nat /\
  exists p : point pynum,
    hydrate Point 9157 [PyInt 1; PyInt 2] = Ok p /\
    exists v : pynum, pt_items p !! 1%nat = Some v /\ getattr_property p "y" = Ok v.
Proof.
  assert (Hin : In (9157, "CartesianPoint3D"%string, ["x"; "y"; "z"]%string) __point_types)
    by (cbn; tauto).
  assert (Hi : (1 < length [PyInt 1; PyInt 2])%nat) by (cbn; lia).
  split; [exact Hin|]. split; [reflexivity|]. split; [exact Hi|].
  eexists. split; [reflexivity|].
  refine (proj1 accessor_projection pynum pynum_builtins 9157 "CartesianPoint3D"%string
                ["x"; "y"; "z"]%string 1%nat "y"%string [PyInt 1; PyInt 2] _
                Hin _ _ Hi); reflexivity.
Defined.

(** C9, as first stated, fails: direct construction from an iterable of one
    item, or of none, gives a point with that many coordinates. *)
Lemma coordinate_count_counterexample :
  length (pt_items (__new__ Point [PyInt 1])) = 1%nat /\
  length (pt_items (__new__ Point ([] : list pynum))) = 0%nat /\
  ~ (forall (cls : pyclass) (iterable : list pynum),
        length (pt_items (__new__ cls iterable)) = 2%nat \/
        length (pt_items (__new__ cls iterable)) = 3%nat).
Proof.
  split; [reflexivity|]. split; [reflexivity|].
  intros Hclaim. destruct (Hclaim Point [PyInt 1]) as [Hlen | Hlen]; discriminate Hlen.
Qed.

Lemma hydrate_coordinate_count_witness :
  exists p : point pynum,
    hydrate Point 4326 [PyInt 1; PyInt 2] = Ok p /\
    (length (pt_items p) = 2 \/ length (pt_items p) = 3)%nat.
Proof.
  eexists. split; [reflexivity|].
  refine (proj1 (hydrate_coordinate_count pynum pynum_builtins Point 4326
                   [PyInt 1; PyInt 2] _ _)).
  reflexivity.
Defined.

Lemma third_accessor_out_of_range_witness :
  In (4979, "WGS84Point3D"%string, ["longitude"; "latitude"; "height"]%string)
     __point_types /\
  length [PyFloat 1; PyFloat 2] = 2%nat /\
  exists p : point pynum,
    hydrate Point 4979 [PyFloat 1; PyFloat 2] = Ok p /\
    pt_class p = make_type 4979 "WGS84Point3D" ["longitude"; "latitude"; "height"] /\
    pt_items p = [PyFloat 1; PyFloat 2] /\
    getattr_property p "height" = tuple_getitem [PyFloat 1; PyFloat 2] 2 /\
    getattr_property p "height" = Raise (IndexError "tuple index out of range").
Proof.
  assert (Hin : In (4979, "WGS84Point3D"%string,
                    ["longitude"; "latitude"; "height"]%string) __point_types)
    by (cbn; tauto).
  split; [exact Hin|]. split; [reflexivity|].
  exact (proj2 (third_accessor_out_of_range pynum pynum_builtins 4979
                  "WGS84Point3D"%string "longitude"%string "latitude"%string
                  "height"%string [PyFloat 1; PyFloat 2] Hin eq_refl)).
Defined.

(** ** More of the module: the search, the created classes, the bindings *)

(** A search through two lists in a row looks into the second only when
    the first has no match. *)
Lemma find_app_first {T : Type} (f : T -> bool) (l1 l2 : list T) :
  List.find f (l1 ++ l2)
  = match List.find f l1 with Some x => Some x | None => List.find f l2 end.
Proof.
  induction l1 as [|x l1 IH]; [reflexivity|].
  cbn. destruct (f x); [reflexivity|exact IH].
Qed.

(** [__get_subclass] is the search for the first class of the tree that
    carries the code. *)
Lemma get_subclass_find (cls : pyclass) (crs : Z) :
  __get_subclass cls crs = List.find (has_crs crs) (class_tree cls).
Proof.
  revert cls. fix IH 1. intros [name d subs].
  cbn [__get_subclass class_tree cls_subclasses List.find].
  unfold has_crs at 1. destruct (crsv_eqb _ _); [reflexivity|].
  induction subs as [|s subs IHsubs]; [reflexivity|].
  cbn [flat_map]. rewrite find_app_first, <- (IH s), <- IHsubs.
  destruct (__get_subclass s crs); reflexivity.
Qed.

(** X1. On any tree of classes that each bind [crs], [__get_subclass]
    returns the first class, in the order of the visit, whose [crs] is the
    code: what it returns belongs to the tree and carries the code, and it
    returns [None] exactly when no class of the tree carries the code. *)
Theorem get_subclass_first_match (cls : pyclass) (crs : Z) :
  Forall defines_crs (class_tree cls) ->
  __get_subclass cls crs = List.find (has_crs crs) (class_tree cls) /\
  (forall got : pyclass,
      __get_subclass cls crs = Some got ->
      In got (class_tree cls) /\ class_crs got = IntV crs) /\
  (__get_subclass cls crs = None <->
   forall c : pyclass, In c (class_tree cls) -> class_crs c <> IntV crs).
Proof.
  intros _. split; [apply get_subclass_find|]. rewrite get_subclass_find. split.
  - intros got Hgot. apply List.find_some in Hgot as [Hin Hcrs].
    split; [exact Hin|]. apply crsv_eqb_eq. exact Hcrs.
  - split.
    + intros Hnone c Hin Hcrs. pose proof (List.find_none _ _ Hnone c Hin) as Hc.
      unfold has_crs in Hc. rewrite Hcrs, crsv_eqb_refl in Hc. discriminate.
    + intros Hall. destruct (List.find _ _) as [got|] eqn:Hgot; [|reflexivity].
      apply List.find_some in Hgot as [Hin Hcrs]. apply crsv_eqb_eq in Hcrs.
      destruct (Hall got Hin Hcrs).
Qed.

(** The loop over [enumerate(fields)] leaves the other names alone. *)
Lemma attributes_fold_other (fields : list string) (k : nat) (d : gmap string attr) (n : string) :
  ~ In n fields ->
  fold_left (fun d '(i, field) => <[field := AttrProperty i]> d)
            (zip (seq k (length fields)) fields) d !! n = d !! n.
Proof.
  revert k d. induction fields as [|f fields IH]; intros k d Hn; [reflexivity|].
  cbn. rewrite IH by (intros Hin; apply Hn; right; exact Hin).
  apply lookup_insert_ne. intros ->. apply Hn. left. reflexivity.
Qed.

(** A name is left bound to the index of its last occurrence. *)
Lemma attributes_fold_last (before after : list string) (field : string) (k : nat)
      (d : gmap string attr) :
  ~ In field after ->
  fold_left (fun d '(i, field) => <[field := AttrProperty i]> d)
            (zip (seq k (length (before ++ field :: after))) (before ++ field :: after)) d
    !! field
  = Some (AttrProperty (k + length before)).
Proof.
  intros Hafter. revert k d. induction before as [|f before IH]; intros k d.
  - cbn. rewrite attributes_fold_other by exact Hafter.
    rewrite lookup_insert_eq. do 2 f_equal. lia.
  - cbn. rewrite IH. do 2 f_equal. lia.
Qed.

Lemma attributes_last (crs : Z) (before after : list string) (field : string) :
  ~ In field after ->
  attributes crs (before ++ field :: after) !! field = Some (AttrProperty (length before)).
Proof. intros Hafter. exact (attributes_fold_last before after field 0 _ Hafter). Qed.

Lemma attributes_crs (crs : Z) (fields : list string) :
  ~ In "crs"%string fields ->
  attributes crs fields !! "crs"%string = Some (AttrValue (IntV crs)).
Proof.
  intros Hcrs. unfold attributes, enumerate.
  rewrite attributes_fold_other by exact Hcrs. apply lookup_singleton_eq.
Qed.

Lemma attributes_unbound (crs : Z) (fields : list string) (n : string) :
  n <> "crs"%string -> ~ In n fields -> attributes crs fields !! n = None.
Proof.
  intros Hn Hin. unfold attributes, enumerate.
  rewrite attributes_fold_other by exact Hin. apply lookup_singleton_ne. congruence.
Qed.

(** With distinct names, the name at position [i] reads index [i]. *)
Lemma attributes_field (crs : Z) (fields : list string) (i : nat) (field : string) :
  NoDup fields ->
  fields !! i = Some field ->
  attributes crs fields !! field = Some (AttrProperty i).
Proof.
  intros Hnd Hi.
  destruct (list_elem_of_split_length fields i field Hi) as (before & after & -> & ->).
  apply attributes_last.
  apply NoDup_app in Hnd as (_ & _ & Hnd). apply NoDup_cons in Hnd as [Hnot _].
  rewrite <- list_elem_of_In. exact Hnot.
Qed.

(** A created class carries its code. *)
Lemma class_crs_make_type (crs : Z) (name : string) (fields : list string) :
  ~ In "crs"%string fields -> class_crs (make_type crs name fields) = IntV crs.
Proof.
  intros Hcrs. unfold class_crs, make_type. cbn [cls_dict].
  rewrite (attributes_crs crs fields Hcrs). reflexivity.
Qed.

(** X2. The dictionary of a created class binds every attribute name to
    the property that reads the index of the last occurrence of the name in
    the list (for distinct names, its position), keeps [crs] bound to the
    code unless [crs] is itself an attribute name, and binds nothing else. *)
Theorem attributes_lookup (crs : Z) (fields : list string) :
  (forall (before after : list string) (field : string),
      fields = before ++ field :: after ->
      ~ In field after ->
      attributes crs fields !! field = Some (AttrProperty (length before))) /\
  (~ In "crs"%string fields ->
   attributes crs fields !! "crs"%string = Some (AttrValue (IntV crs))) /\
  (forall n : string,
      n <> "crs"%string -> ~ In n fields -> attributes crs fields !! n = None).
Proof.
  split; [|split].
  - intros before after field -> Hafter. apply attributes_last. exact Hafter.
  - apply attributes_crs.
  - apply attributes_unbound.
Qed.

(** X3. In a class created from any code and any list of distinct plain
    attribute names, the accessor of the name at position [i] returns the
    item at index [i] of an instance that has one, and raises [IndexError]
    on an instance with [i] items or fewer. *)
Theorem created_class_accessor (A : Type) (B : Builtins A) (crs : Z) (name : string)
        (fields : list string) (d : gmap string crsv) (items : list A)
        (i : nat) (field : string) :
  NoDup fields ->
  Forall (fun f => plain_name f = true) fields ->
  fields !! i = Some field ->
  ((i < length items)%nat ->
   exists v : A,
     items !! i = Some v /\
     getattr_property (MkPoint (make_type crs name fields) d items) field = Ok v) /\
  ((length items <= i)%nat ->
   getattr_property (MkPoint (make_type crs name fields) d items) field
   = Raise (IndexError "tuple index out of range")).
Proof.
  intros Hnd _ Hi. unfold getattr_property. cbn [pt_class pt_items make_type cls_dict].
  rewrite (attributes_field crs fields i field Hnd Hi). unfold tuple_getitem. split.
  - intros Hlt. destruct (lookup_lt_is_Some_2 items i Hlt) as [v Hv].
    exists v. rewrite Hv. auto.
  - intros Hge. rewrite (lookup_ge_None_2 items i Hge). reflexivity.
Qed.

Lemma table_field_not_crs (c : Z) (name : string) (fields : list string) :
  In (c, name, fields) __point_types -> ~ In "crs"%string fields.
Proof.
  intros Hin. cbn in Hin.
  destruct Hin as [[= <- <- <-] | [[= <- <- <-] | [[= <- <- <-] | [[= <- <- <-] | []]]]];
    cbn; intuition discriminate.
Qed.

(** X4. A point hydrated from the code of one entry has no accessor for an
    attribute name that only other entries declare: the lookup raises
    [AttributeError], although the coordinates are all stored (so the third
    coordinate given under 7203 cannot be read as [z]). A directly
    constructed base [Point] has none of these accessors either. *)
Theorem accessor_not_declared (A : Type) (B : Builtins A) (c c' : Z) (name name' : string)
        (fields fields' : list string) (label : string) (coords : list A) (p : point A) :
  In (c, name, fields) __point_types ->
  In (c', name', fields') __point_types ->
  In label fields' ->
  ~ In label fields ->
  hydrate Point c coords = Ok p ->
  pt_items p = coords /\
  getattr_property p label = Raise AttributeError /\
  getattr_property (__new__ Point coords) label = Raise AttributeError.
Proof.
  intros Hin Hin' Hlabel Hnot Hp.
  assert (Hcrs : label <> "crs"%string).
  { intros ->. exact (table_field_not_crs _ _ _ Hin' Hlabel). }
  apply hydrate_inv in Hp as (point_class & Hcls & _ & ->).
  rewrite (get_subclass_entry _ _ _ Hin) in Hcls. injection Hcls as <-.
  split; [reflexivity|]. unfold getattr_property. cbn [pt_class __new__ make_type cls_dict].
  rewrite (attributes_unbound c fields label Hcrs Hnot). split; [reflexivity|].
  unfold Point. cbn [cls_dict]. rewrite lookup_singleton_ne by congruence. reflexivity.
Qed.

(** A class that carries the code answers with itself. *)
Lemma get_subclass_own (cls : pyclass) (c : Z) :
  class_crs cls = IntV c -> __get_subclass cls c = Some cls.
Proof.
  intros Hc. destruct cls as [name d subs]. cbn [__get_subclass].
  rewrite Hc, crsv_eqb_refl. reflexivity.
Qed.

(** X5. Called on a created class instead of [Point], [hydrate] does what
    [Point.hydrate] does for the code of that class, and rejects every
    other code as unsupported, the codes of the other entries included. *)
Theorem hydrate_on_created_class (A : Type) (B : Builtins A) (c c' : Z) (name : string)
        (fields : list string) (coords : list A) :
  In (c, name, fields) __point_types ->
  hydrate (make_type c name fields) c coords = hydrate Point c coords /\
  (c' <> c ->
   hydrate (make_type c name fields) c' coords
   = Raise (ValueError ("CRS " +:+ fmt_d c' +:+ " not supported"))).
Proof.
  intros Hin.
  pose proof (class_crs_make_type c name fields (table_field_not_crs _ _ _ Hin)) as Hcrs.
  split.
  - unfold hydrate. rewrite (get_subclass_own _ _ Hcrs), (get_subclass_entry _ _ _ Hin).
    reflexivity.
  - intros Hne. unfold hydrate, make_type in *. rewrite get_subclass_leaf, Hcrs.
    cbn [crsv_eqb]. destruct (Z.eqb_spec c c') as [->|_]; [congruence|reflexivity].
Qed.

(** X6. Whatever class [hydrate] is called on, in a tree of classes that
    each bind [crs], a point it returns is an
    instance of a class of the tree of that class, the class and the
    instance both carry the code, the items are the coordinates, and
    hydrating again on the class of the point, from its code and its items,
    gives the same point. It never returns an instance of a class with
    another code or with none. *)
Theorem hydrate_result (A : Type) (B : Builtins A) (cls : pyclass) (c : Z)
        (coords : list A) (p : point A) :
  Forall defines_crs (class_tree cls) ->
  hydrate cls c coords = Ok p ->
  In (pt_class p) (class_tree cls) /\
  class_crs (pt_class p) = IntV c /\
  point_crs p = IntV c /\
  pt_items p = coords /\
  hydrate (pt_class p) c (pt_items p) = Ok p.
Proof.
  intros _ Hp. apply hydrate_inv in Hp as (point_class & Hcls & Hlen & ->).
  rewrite get_subclass_find in Hcls. apply List.find_some in Hcls as [Hin Hcrs].
  apply crsv_eqb_eq in Hcrs. cbn [pt_class pt_items].
  split; [exact Hin|]. split; [exact Hcrs|]. split; [reflexivity|]. split; [reflexivity|].
  apply hydrate_found; [apply get_subclass_own; exact Hcrs|exact Hlen].
Qed.

Lemma Forall2_same_length {T U : Type} (R : T -> U -> Prop) (l : list T) (k : list U) :
  Forall2 R l k -> length l = length k.
Proof. induction 1; cbn; congruence. Qed.

(** X7. Two hydrated points are
    equal exactly when the codes are equal and the coordinates are equal
    one by one; points of different codes, or of different numbers of
    coordinates, are not equal. *)
Theorem hydrated_points_equal_iff (A : Type) (B : Builtins A)
        (c c' : Z) (coords coords' : list A) (p q : point A) :
  hydrate Point c coords = Ok p ->
  hydrate Point c' coords' = Ok q ->
  (__eq__ p (OPoint q) = Ok true
   <-> c = c' /\ Forall2 (fun a b => py_eq a b = true) coords coords') /\
  (c <> c' -> __eq__ p (OPoint q) = Ok false) /\
  (length coords <> length coords' -> __eq__ p (OPoint q) = Ok false).
Proof.
  intros Hp Hq.
  apply hydrate_inv in Hp as (pc & _ & _ & ->).
  apply hydrate_inv in Hq as (qc & _ & _ & ->).
  assert (Hiff : __eq__ (MkPoint pc {["crs"%string := IntV c]} coords)
                        (OPoint (MkPoint qc {["crs"%string := IntV c']} coords')) = Ok true
                 <-> c = c' /\ Forall2 (fun a b => py_eq a b = true) coords coords').
  { rewrite eq_points_iff. cbn [pt_items]. unfold point_crs. cbn [pt_dict].
    rewrite !lookup_singleton_eq. split.
    - intros [[= ->] Hitems]. auto.
    - intros [-> Hitems]. auto. }
  split; [exact Hiff|].
  assert (Hfalse : forall x y : point A,
             __eq__ x (OPoint y) <> Ok true -> __eq__ x (OPoint y) = Ok false).
  { intros x y. rewrite eq_points. destruct (_ && _); congruence. }
  split.
  - intros Hne. apply Hfalse. rewrite Hiff. intros [Heq _]. exact (Hne Heq).
  - intros Hne. apply Hfalse. rewrite Hiff. intros [_ Hitems].
    exact (Hne (Forall2_same_length _ _ _ Hitems)).
Qed.

(** X8. An instance of a created class built directly from an iterable
    takes its [crs] from the class, and is equal, both ways, to the point
    hydrated from that code and the same items, with the same hash. *)
Theorem direct_construction_of_created_class (A : Type) (B : Builtins A) (L : BuiltinLaws A)
        (c : Z) (name : string) (fields : list string) (items : list A) (q : point A) :
  In (c, name, fields) __point_types ->
  hydrate Point c items = Ok q ->
  point_crs (__new__ (make_type c name fields) items) = IntV c /\
  __eq__ (__new__ (make_type c name fields) items) (OPoint q) = Ok true /\
  __eq__ q (OPoint (__new__ (make_type c name fields) items)) = Ok true /\
  __hash__ (__new__ (make_type c name fields) items) = __hash__ q.
Proof.
  intros Hin Hq.
  assert (Hcrs : point_crs (__new__ (make_type c name fields) items) = IntV c).
  { unfold point_crs, __new__. cbn [pt_dict pt_class]. rewrite lookup_empty.
    exact (class_crs_make_type c name fields (table_field_not_crs _ _ _ Hin)). }
  apply hydrate_inv in Hq as (qc & _ & _ & ->).
  assert (Hq : point_crs (MkPoint qc {["crs"%string := IntV c]} items) = IntV c).
  { unfold point_crs. cbn [pt_dict]. rewrite lookup_singleton_eq. reflexivity. }
  split; [exact Hcrs|].
  rewrite !eq_points, Hcrs, Hq, crsv_eqb_refl. cbn [__new__ pt_items].
  rewrite tuple_eqb_refl. split; [reflexivity|]. split; [reflexivity|].
  unfold __hash__. rewrite Hcrs, Hq. reflexivity.
Qed.

(** X9. A directly constructed base [Point] has [crs] [None]: it is equal
    to no hydrated point, either way, and two of them are equal exactly
    when their items are equal one by one. *)
Theorem direct_base_point (A : Type) (B : Builtins A) (items items' : list A)
        (c : Z) (coords : list A) (q : point A) :
  hydrate Point c coords = Ok q ->
  point_crs (__new__ Point items) = NoneV /\
  __eq__ (__new__ Point items) (OPoint q) = Ok false /\
  __eq__ q (OPoint (__new__ Point items)) = Ok false /\
  (__eq__ (__new__ Point items) (OPoint (__new__ Point items')) = Ok true
   <-> Forall2 (fun a b => py_eq a b = true) items items').
Proof.
  intros Hq. apply hydrate_inv in Hq as (qc & _ & _ & ->).
  assert (Hnone : forall l : list A, point_crs (__new__ Point l) = NoneV) by reflexivity.
  assert (Hq : point_crs (MkPoint qc {["crs"%string := IntV c]} coords) = IntV c).
  { unfold point_crs. cbn [pt_dict]. rewrite lookup_singleton_eq. reflexivity. }
  split; [apply Hnone|].
  split; [rewrite eq_points, Hnone, Hq; reflexivity|].
  split; [rewrite eq_points, Hnone, Hq; reflexivity|].
  rewrite eq_points_iff, !Hnone. cbn [__new__ pt_items]. tauto.
Qed.

(** X10. [__ne__] answers the negation of what [__eq__] answers and raises
    exactly what [__eq__] raises: it is true of every value without a
    [crs], and false of another point exactly when [crs] and items are
    equal. *)
Theorem ne_negates_eq (A : Type) (B : Builtins A) (p : point A) (x : pyobj A) :
  (forall b : bool, __ne__ p x = Ok b <-> __eq__ p x = Ok (negb b)) /\
  (forall e : exn, __ne__ p x = Raise e <-> __eq__ p x = Raise e) /\
  (getattr_crs x = Raise AttributeError -> __ne__ p x = Ok true) /\
  (forall q : point A,
      x = OPoint q ->
      (__ne__ p x = Ok false
       <-> point_crs p = point_crs q
           /\ Forall2 (fun a b => py_eq a b = true) (pt_items p) (pt_items q))).
Proof.
  unfold __ne__. split; [|split; [|split]].
  - intros b. destruct (__eq__ p x) as [b'|e]; cbn; [|split; discriminate].
    destruct b, b'; cbn; split; congruence.
  - intros e. destruct (__eq__ p x) as [b'|e']; cbn; [split; discriminate|tauto].
  - intros Hx. rewrite (eq_lacking_crs p x Hx). reflexivity.
  - intros q ->. rewrite <- eq_points_iff.
    destruct (__eq__ p (OPoint q)) as [[|]|e]; cbn; split; congruence.
Qed.

(** X11. [__eq__] raises an exception exactly when that exception is
    neither an [AttributeError] nor a [TypeError] and is raised by one of
    the four steps, in this order: [other.crs]; the comparison of the two
    [crs]; [tuple(other)], reached only when the two [crs] compared equal;
    the comparison of the two tuples. When the two [crs] compare unequal,
    [tuple(other)] is not evaluated and the answer is false. *)
Theorem eq_raises_iff (A : Type) (B : Builtins A) (p : point A) (x : pyobj A) (e : exn) :
  (__eq__ p x = Raise e
   <-> caught e = false
       /\ (getattr_crs x = Raise e
           \/ exists c : crs_attr,
               getattr_crs x = Ok c
               /\ (crs_eq (point_crs p) c = Raise e
                   \/ crs_eq (point_crs p) c = Ok true
                      /\ (py_tuple x = Raise e
                          \/ exists items : list (item A),
                              py_tuple x = Ok items
                              /\ tuple_eq (pt_items p) items = Raise e)))) /\
  (forall c : crs_attr,
      getattr_crs x = Ok c -> crs_eq (point_crs p) c = Ok false ->
      __eq__ p x = Ok false).
Proof.
  assert (Htry : forall r : result bool,
             try_except_attr_type r (Ok false) = Raise e
             <-> caught e = false /\ r = Raise e).
  { intros [b|e']; cbn.
    - split; [discriminate|]. intros [_ Hr]. discriminate Hr.
    - destruct (caught e') eqn:Ec; split.
      + discriminate.
      + intros [Hc [= ->]]. congruence.
      + intros [= ->]. auto.
      + intros [_ [= ->]]. reflexivity. }
  unfold __eq__. split.
  - rewrite Htry. apply and_iff_compat_l.
    destruct (getattr_crs x) as [c|e1]; cbn.
    + destruct (crs_eq (point_crs p) c) as [[|]|e2] eqn:Ecmp; cbn.
      * destruct (py_tuple x) as [items|e3]; cbn.
        -- split.
           ++ intros Hraise. right. exists c. split; [reflexivity|]. right.
              split; [exact Ecmp|]. right. exists items. auto.
           ++ intros [H|(c' & [= <-] & [H|(_ & [H|(items' & [= <-] & H)])])];
                congruence.
        -- split.
           ++ intros Hraise. right. exists c. split; [reflexivity|]. right.
              split; [exact Ecmp|]. left. congruence.
           ++ intros [H|(c' & [= <-] & [H|(_ & [H|(items' & H & _)])])];
                congruence.
      * split; [discriminate|].
        intros [H|(c' & [= <-] & [H|(H & _)])]; congruence.
      * split.
        -- intros Hraise. right. exists c. split; [reflexivity|]. left. congruence.
        -- intros [H|(c' & [= <-] & [H|(H & _)])]; congruence.
    + split; [intros Hraise; left; congruence|].
      intros [H|(c & H & _)]; congruence.
  - intros c Hc Hne. rewrite Hc. cbn. rewrite Hne. reflexivity.
Qed.

(** X12. The text of a point shows neither its code nor its class: points
    hydrated from the same coordinates under different codes read the same
    and are not equal. *)
Theorem repr_ignores_crs (A : Type) (B : Builtins A) (c c' : Z)
        (coords : list A) (p q : point A) :
  hydrate Point c coords = Ok p ->
  hydrate Point c' coords = Ok q ->
  c <> c' ->
  __repr__ p = __repr__ q /\ __eq__ p (OPoint q) = Ok false.
Proof.
  intros Hp Hq Hne.
  apply hydrate_inv in Hp as (pc & _ & _ & ->).
  apply hydrate_inv in Hq as (qc & _ & _ & ->).
  split; [reflexivity|].
  rewrite eq_points. unfold point_crs. cbn [pt_dict]. rewrite !lookup_singleton_eq.
  cbn [crsv_eqb]. destruct (Z.eqb_spec c c'); [contradiction|reflexivity].
Qed.

Lemma Point_unfold : Point = point_class_for __point_types.
Proof. reflexivity. Qed.

Lemma module_scope_unfold : module_scope = module_scope_for __point_types.
Proof. reflexivity. Qed.

Lemma created_leaves (types : list (Z * string * list string)) :
  Forall (fun s => cls_subclasses s = []) (__create_point_types types).
Proof.
  induction types as [|[[c name] fields] types IH]; constructor; [reflexivity|exact IH].
Qed.

(** For any table whose entries have no attribute named [crs], the search
    from [Point] finds the class of the first entry with the code. *)
Lemma get_subclass_for_table (types : list (Z * string * list string)) (c : Z) :
  Forall (fun t => ~ In "crs"%string (snd t)) types ->
  __get_subclass (point_class_for types) c
  = match List.find (fun t => fst (fst t) =? c) types with
    | Some (c0, name, fields) => Some (make_type c0 name fields)
    | None => None
    end.
Proof.
  intros Hcrs. unfold point_class_for.
  rewrite get_subclass_flat by apply created_leaves.
  change (crsv_eqb (class_crs _) (IntV c)) with false at 1. cbv iota.
  induction Hcrs as [|[[c0 name] fields] types Ht _ IH]; [reflexivity|].
  cbn [__create_point_types map List.find fst snd] in *.
  rewrite (class_crs_make_type c0 name fields Ht). cbn [crsv_eqb].
  destruct (c0 =? c); [reflexivity|exact IH].
Qed.

(** In a table of distinct codes, the search by code finds the entry that
    has the code, and nothing for a code no entry has. *)
Lemma find_entry (types : list (Z * string * list string))
      (c : Z) (name : string) (fields : list string) :
  NoDup (map (fun t => fst (fst t)) types) ->
  In (c, name, fields) types ->
  List.find (fun t => fst (fst t) =? c) types = Some (c, name, fields).
Proof.
  intros Hnd Hin. induction types as [|[[c0 name0] fields0] types IH]; [destruct Hin|].
  cbn [map fst snd] in Hnd. apply NoDup_cons in Hnd as [Hnot Hnd].
  cbn [List.find fst snd]. destruct Hin as [[= -> -> ->]|Hin].
  - rewrite Z.eqb_refl. reflexivity.
  - destruct (Z.eqb_spec c0 c) as [->|_]; [|exact (IH Hnd Hin)].
    exfalso. apply Hnot. rewrite list_elem_of_In.
    exact (List.in_map (fun t => fst (fst t)) _ _ Hin).
Qed.

Lemma find_no_entry (types : list (Z * string * list string)) (c : Z) :
  ~ In c (map (fun t => fst (fst t)) types) ->
  List.find (fun t => fst (fst t) =? c) types = None.
Proof.
  intros Hnot. induction types as [|[[c0 name0] fields0] types IH]; [reflexivity|].
  cbn [List.find fst snd]. destruct (Z.eqb_spec c0 c) as [->|_].
  - exfalso. apply Hnot. left. reflexivity.
  - apply IH. intros Hin. apply Hnot. right. exact Hin.
Qed.

(** X13. For any table the module can be given (distinct identifier names
    that shadow nothing the module reads, distinct codes, identifier
    attribute names other than [crs]), [Point.__get_subclass] resolves the
    code of an entry to the class created for that entry, and [hydrate]
    returns an instance of it for 2 or 3 coordinates and raises the
    dimensionality error otherwise; a code no entry has resolves to [None]
    and makes [hydrate] raise the unsupported-CRS error. *)
Theorem registry_for_table (A : Type) (B : Builtins A)
        (types : list (Z * string * list string)) (c : Z) (coords : list A) :
  table_ok types ->
  (forall (name : string) (fields : list string),
      In (c, name, fields) types ->
      __get_subclass (point_class_for types) c = Some (make_type c name fields) /\
      hydrate (point_class_for types) c coords
      = if (2 <=? len coords) && (len coords <=? 3)
        then Ok (MkPoint (make_type c name fields) {["crs"%string := IntV c]} coords)
        else Raise (ValueError (fmt_d (len coords)
                                  +:+ "-dimensional Point values are not supported"))) /\
  (~ In c (map (fun t => fst (fst t)) types) ->
   __get_subclass (point_class_for types) c = None /\
   hydrate (point_class_for types) c coords
   = Raise (ValueError ("CRS " +:+ fmt_d c +:+ " not supported"))).
Proof.
  intros (_ & Hcodes & Hok).
  assert (Hcrs : Forall (fun t => ~ In "crs"%string (snd t)) types).
  { eapply Forall_impl; [exact Hok|]. cbn. tauto. }
  pose proof (get_subclass_for_table types c Hcrs) as Hget. split.
  - intros name fields Hin.
    rewrite (find_entry types c name fields Hcodes Hin) in Hget.
    split; [exact Hget|]. unfold hydrate. rewrite Hget. reflexivity.
  - intros Hnot. rewrite (find_no_entry types c Hnot) in Hget.
    split; [exact Hget|]. unfold hydrate. rewrite Hget. reflexivity.
Qed.

(** The bindings made by the loop: other names are kept, and a name is
    left bound to the last class created under it. *)
Lemma scope_fold_other (classes : list pyclass) (m : gmap string pyclass) (n : string) :
  ~ In n (map cls_name classes) ->
  fold_left (fun m cls => <[cls_name cls := cls]> m) classes m !! n = m !! n.
Proof.
  revert m. induction classes as [|cls classes IH]; intros m Hn; [reflexivity|].
  cbn. rewrite IH by (intros Hin; apply Hn; right; exact Hin).
  apply lookup_insert_ne. intros Heq. apply Hn. left. exact Heq.
Qed.

Lemma scope_fold_last (before after : list pyclass) (cls : pyclass)
      (m : gmap string pyclass) :
  ~ In (cls_name cls) (map cls_name after) ->
  fold_left (fun m cls => <[cls_name cls := cls]> m) (before ++ cls :: after) m
    !! cls_name cls = Some cls.
Proof.
  intros Hafter. rewrite fold_left_app. cbn.
  rewrite scope_fold_other by exact Hafter. apply lookup_insert_eq.
Qed.

Lemma created_names (types : list (Z * string * list string)) :
  map cls_name (__create_point_types types) = map (fun t => snd (fst t)) types.
Proof.
  unfold __create_point_types. rewrite List.map_map. apply List.map_ext.
  intros [[c name] fields]. reflexivity.
Qed.

Lemma all_for_names (types : list (Z * string * list string)) :
  all_for types = "Point"%string :: map (fun t => snd (fst t)) types.
Proof.
  assert (Hgen : forall acc : list string,
             fold_left (fun all '(_, name, _) => all ++ [name]) types acc
             = acc ++ map (fun t => snd (fst t)) types).
  { induction types as [|[[c name] fields] types IH]; intros acc.
    - cbn. rewrite app_nil_r. reflexivity.
    - cbn [fold_left map fst snd]. rewrite IH, <- app_assoc. reflexivity. }
  exact (Hgen ["Point"%string]).
Qed.

(** X14. For any table the module can be given, the module exports
    ["Point"] followed by the names of the entries in order, keeps [Point]
    bound, binds the name of each entry to the class created for it, and
    binds no class under a name it does not export. *)
Theorem module_bindings (types : list (Z * string * list string)) :
  table_ok types ->
  all_for types = "Point"%string :: map (fun t => snd (fst t)) types /\
  module_scope_for types !! "Point"%string = Some (point_class_for types) /\
  (forall (c : Z) (name : string) (fields : list string),
      In (c, name, fields) types ->
      module_scope_for types !! name = Some (make_type c name fields) /\
      In name (all_for types)) /\
  (forall n : string,
      ~ In n (all_for types) -> module_scope_for types !! n = None).
Proof.
  intros (Hnames & _ & Hok).
  assert (Hpoint : ~ In "Point"%string (map (fun t => snd (fst t)) types)).
  { intros Hin. apply List.in_map_iff in Hin as (t & Hname & Hin).
    rewrite List.Forall_forall in Hok. destruct (Hok t Hin) as (_ & Hres & _).
    apply Hres. rewrite Hname. left. reflexivity. }
  unfold module_scope_for.
  split; [apply all_for_names|split; [|split]].
  - rewrite scope_fold_other by (rewrite created_names; exact Hpoint).
    apply lookup_singleton_eq.
  - intros c name fields Hin. split.
    + apply list_elem_of_In, list_elem_of_split in Hin as (before & after & ->).
      unfold __create_point_types at 1. rewrite map_app. cbn [map].
      apply (scope_fold_last _ _ (make_type c name fields)).
      change (map _ after) with (__create_point_types after). rewrite created_names.
      rewrite map_app in Hnames. cbn [map fst snd] in Hnames.
      apply NoDup_app in Hnames as (_ & _ & Hnames).
      apply NoDup_cons in Hnames as [Hnot _].
      rewrite <- list_elem_of_In. exact Hnot.
    + rewrite all_for_names. right.
      exact (List.in_map (fun t => snd (fst t)) _ _ Hin).
  - intros n Hn. rewrite all_for_names in Hn.
    rewrite scope_fold_other.
    + apply lookup_singleton_ne. intros <-. apply Hn. left. reflexivity.
    + rewrite created_names. intros Hin. apply Hn. right. exact Hin.
Qed.

(** ** These statements at concrete inputs *)

(** The table of the module is one it can be given, and its classes each
    bind [crs]. *)
Lemma point_types_ok : table_ok __point_types.
Proof.
  split; [apply (bool_decide_unpack _); vm_compute; exact I|].
  split; [apply (bool_decide_unpack _); vm_compute; exact I|].
  repeat constructor; cbn; intuition discriminate.
Qed.

Lemma point_tree_defines_crs : Forall defines_crs (class_tree Point).
Proof.
  repeat constructor; eexists; reflexivity.
Qed.

(** The search for 4326 from [Point]. *)
Lemma get_subclass_first_match_witness :
  __get_subclass Point 4326 = Some (make_type 4326 "WGS84Point" ["longitude"; "latitude"]) /\
  In (make_type 4326 "WGS84Point" ["longitude"; "latitude"]) (class_tree Point) /\
  class_crs (make_type 4326 "WGS84Point" ["longitude"; "latitude"]) = IntV 4326.
Proof.
  split; [reflexivity|].
  apply (proj1 (proj2 (get_subclass_first_match Point 4326 point_tree_defines_crs))).
  reflexivity.
Defined.

(** A repeated name is bound to its last index. *)
Lemma attributes_lookup_witness :
  (["x"; "y"; "x"]%string : list string) = ["x"; "y"]%string ++ "x"%string :: [] /\
  ~ In "x"%string [] /\
  attributes 1 ["x"; "y"; "x"] !! "x"%string = Some (AttrProperty 2).
Proof.
  split; [reflexivity|]. split; [cbn; tauto|].
  apply (proj1 (attributes_lookup 1 ["x"; "y"; "x"]%string) ["x"; "y"]%string [] "x"%string).
  - reflexivity.
  - cbn. tauto.
Defined.

(** The third accessor on two items. *)
Lemma created_class_accessor_witness :
  NoDup ["x"; "y"; "z"]%string /\
  Forall (fun f => plain_name f = true) ["x"; "y"; "z"]%string /\
  (["x"; "y"; "z"]%string : list string) !! 2%nat = Some "z"%string /\
  (length [PyInt 1; PyInt 2] <= 2)%nat /\
  getattr_property (MkPoint (make_type 9157 "CartesianPoint3D" ["x"; "y"; "z"]) ∅
                            [PyInt 1; PyInt 2]) "z"
  = Raise (IndexError "tuple index out of range").
Proof.
  assert (Hnd : NoDup ["x"; "y"; "z"]%string) by (apply (bool_decide_unpack _); vm_compute; exact I).
  assert (Hlen : (length [PyInt 1; PyInt 2] <= 2)%nat) by (cbn; lia).
  assert (Hplain : Forall (fun f => plain_name f = true) ["x"; "y"; "z"]%string)
    by (repeat constructor).
  split; [exact Hnd|]. split; [exact Hplain|]. split; [reflexivity|]. split; [exact Hlen|].
  exact (proj2 (created_class_accessor pynum pynum_builtins 9157 "CartesianPoint3D"%string
                  ["x"; "y"; "z"]%string ∅ [PyInt 1; PyInt 2] 2%nat "z"%string
                  Hnd Hplain eq_refl) Hlen).
Defined.

(** Three coordinates under 7203: no [z]. *)
Lemma accessor_not_declared_witness :
  exists p : point pynum,
    hydrate Point 7203 [PyInt 1; PyInt 2; PyInt 3] = Ok p /\
    pt_items p = [PyInt 1; PyInt 2; PyInt 3] /\
    getattr_property p "z" = Raise AttributeError /\
    getattr_property (__new__ Point [PyInt 1; PyInt 2; PyInt 3]) "z" = Raise AttributeError.
Proof.
  eexists. split; [reflexivity|].
  refine (accessor_not_declared pynum pynum_builtins 7203 9157
            "CartesianPoint"%string "CartesianPoint3D"%string
            ["x"; "y"]%string ["x"; "y"; "z"]%string "z"%string
            [PyInt 1; PyInt 2; PyInt 3] _ _ _ _ _ _).
  - cbn. tauto.
  - cbn. tauto.
  - cbn. tauto.
  - cbn. intuition discriminate.
  - reflexivity.
Defined.

(** [CartesianPoint.hydrate(9157, 1, 2, 3)]. *)
Lemma hydrate_on_created_class_witness :
  In (7203, "CartesianPoint"%string, ["x"; "y"]%string) __point_types /\
  9157 <> 7203 /\
  hydrate (make_type 7203 "CartesianPoint" ["x"; "y"]) 9157 [PyInt 1; PyInt 2; PyInt 3]
  = Raise (ValueError "CRS 9157 not supported").
Proof.
  assert (Hin : In (7203, "CartesianPoint"%string, ["x"; "y"]%string) __point_types)
    by (cbn; tauto).
  assert (Hne : 9157 <> 7203) by lia.
  split; [exact Hin|]. split; [exact Hne|].
  exact (proj2 (hydrate_on_created_class pynum pynum_builtins 7203 9157
                  "CartesianPoint"%string ["x"; "y"]%string
                  [PyInt 1; PyInt 2; PyInt 3] Hin) Hne).
Defined.

(** A point hydrated from 4979. *)
Lemma hydrate_result_witness :
  exists p : point pynum,
    hydrate Point 4979 [PyInt 1; PyInt 2; PyInt 3] = Ok p /\
    In (pt_class p) (class_tree Point) /\
    class_crs (pt_class p) = IntV 4979 /\
    point_crs p = IntV 4979 /\
    pt_items p = [PyInt 1; PyInt 2; PyInt 3] /\
    hydrate (pt_class p) 4979 (pt_items p) = Ok p.
Proof.
  eexists. split; [reflexivity|].
  refine (hydrate_result pynum pynum_builtins Point 4979 [PyInt 1; PyInt 2; PyInt 3] _
            point_tree_defines_crs _).
  reflexivity.
Defined.

(** Ints and floats of the same values. *)
Lemma hydrated_points_equal_iff_witness :
  exists p q : point pynum,
    hydrate Point 7203 [PyInt 1; PyInt 2] = Ok p /\
    hydrate Point 7203 [PyFloat 1; PyFloat 2] = Ok q /\
    __eq__ p (OPoint q) = Ok true.
Proof.
  do 2 eexists. split; [reflexivity|]. split; [reflexivity|].
  refine (proj2 (proj1 (hydrated_points_equal_iff pynum pynum_builtins 7203 7203
                          [PyInt 1; PyInt 2] [PyFloat 1; PyFloat 2] _ _ _ _)) _).
  - reflexivity.
  - reflexivity.
  - split; [reflexivity|]. repeat constructor.
Defined.

(** [WGS84Point((13.0, 55.0))] and the point hydrated from 4326. *)
Lemma direct_construction_of_created_class_witness :
  exists q : point pynum,
    In (4326, "WGS84Point"%string, ["longitude"; "latitude"]%string) __point_types /\
    hydrate Point 4326 [PyFloat 13; PyFloat 55] = Ok q /\
    __eq__ (__new__ (make_type 4326 "WGS84Point" ["longitude"; "latitude"])
                    [PyFloat 13; PyFloat 55]) (OPoint q) = Ok true /\
    __hash__ (__new__ (make_type 4326 "WGS84Point" ["longitude"; "latitude"])
                      [PyFloat 13; PyFloat 55]) = __hash__ q.
Proof.
  assert (Hin : In (4326, "WGS84Point"%string, ["longitude"; "latitude"]%string)
                   __point_types) by (cbn; tauto).
  eexists. split; [exact Hin|]. split; [reflexivity|].
  pose proof (direct_construction_of_created_class pynum pynum_builtins pynum_laws
                4326 "WGS84Point"%string ["longitude"; "latitude"]%string
                [PyFloat 13; PyFloat 55] _ Hin eq_refl) as (_ & Heq & _ & Hhash).
  split; [exact Heq|exact Hhash].
Defined.

(** [Point((1, 2))] and the point hydrated from 7203. *)
Lemma direct_base_point_witness :
  exists q : point pynum,
    hydrate Point 7203 [PyInt 1; PyInt 2] = Ok q /\
    point_crs (__new__ Point [PyInt 1; PyInt 2]) = NoneV /\
    __eq__ (__new__ Point [PyInt 1; PyInt 2]) (OPoint q) = Ok false /\
    __eq__ q (OPoint (__new__ Point [PyInt 1; PyInt 2])) = Ok false.
Proof.
  eexists. split; [reflexivity|].
  pose proof (direct_base_point pynum pynum_builtins [PyInt 1; PyInt 2] [PyInt 1; PyInt 2]
                7203 [PyInt 1; PyInt 2] _ eq_refl) as (Hnone & Hpq & Hqp & _).
  split; [exact Hnone|]. split; [exact Hpq|exact Hqp].
Defined.

(** A point differs from an integer. *)
Lemma ne_negates_eq_witness :
  getattr_crs (OInt 3 : pyobj pynum) = Raise AttributeError /\
  __ne__ (__new__ Point [PyInt 1; PyInt 2]) (OInt 3) = Ok true.
Proof.
  split; [reflexivity|].
  apply (proj1 (proj2 (proj2 (ne_negates_eq pynum pynum_builtins
                                 (__new__ Point [PyInt 1; PyInt 2]) (OInt 3))))).
  reflexivity.
Defined.

(** An exception of another class raised by the comparison of the two [crs]. *)
Lemma eq_raises_iff_witness :
  caught (OtherError "ZeroDivisionError") = false /\
  __eq__ (__new__ Point [PyInt 1; PyInt 2])
         (OForeign (Ok (CrsObject (fun _ => Raise (OtherError "ZeroDivisionError"))))
                   (Ok []))
  = Raise (OtherError "ZeroDivisionError").
Proof.
  split; [reflexivity|].
  apply (proj1 (eq_raises_iff pynum pynum_builtins (__new__ Point [PyInt 1; PyInt 2])
                  (OForeign (Ok (CrsObject
                                   (fun _ => Raise (OtherError "ZeroDivisionError"))))
                            (Ok []))
                  (OtherError "ZeroDivisionError"))).
  split; [reflexivity|]. right.
  exists (CrsObject (fun _ => Raise (OtherError "ZeroDivisionError"))).
  split; [reflexivity|]. left. reflexivity.
Defined.

(** The same coordinates under 7203 and 4326. *)
Lemma repr_ignores_crs_witness :
  exists p q : point pynum,
    hydrate Point 7203 [PyInt 1; PyInt 2] = Ok p /\
    hydrate Point 4326 [PyInt 1; PyInt 2] = Ok q /\
    7203 <> 4326 /\
    __repr__ p = __repr__ q /\ __eq__ p (OPoint q) = Ok false.
Proof.
  assert (Hne : 7203 <> 4326) by lia.
  do 2 eexists. split; [reflexivity|]. split; [reflexivity|]. split; [exact Hne|].
  refine (repr_ignores_crs pynum pynum_builtins 7203 4326
            [PyInt 1; PyInt 2] _ _ _ _ Hne); reflexivity.
Defined.

(** The table of the module, code 9157, two coordinates. *)
Lemma registry_for_table_witness :
  table_ok __point_types /\
  In (9157, "CartesianPoint3D"%string, ["x"; "y"; "z"]%string) __point_types /\
  hydrate Point 9157 [PyInt 1; PyInt 2]
  = Ok (MkPoint (make_type 9157 "CartesianPoint3D" ["x"; "y"; "z"])
                {["crs"%string := IntV 9157]} [PyInt 1; PyInt 2]).
Proof.
  assert (Hin : In (9157, "CartesianPoint3D"%string, ["x"; "y"; "z"]%string)
                   __point_types) by (cbn; tauto).
  split; [exact point_types_ok|]. split; [exact Hin|].
  exact (proj2 (proj1 (registry_for_table pynum pynum_builtins __point_types 9157
                         [PyInt 1; PyInt 2] point_types_ok) _ _ Hin)).
Defined.

(** The name [WGS84Point] in the module as imported. *)
Lemma module_bindings_witness :
  table_ok __point_types /\
  In (4326, "WGS84Point"%string, ["longitude"; "latitude"]%string) __point_types /\
  module_scope !! "WGS84Point"%string
  = Some (make_type 4326 "WGS84Point" ["longitude"; "latitude"]) /\
  In "WGS84Point"%string __all__.
Proof.
  assert (Hin : In (4326, "WGS84Point"%string, ["longitude"; "latitude"]%string)
                   __point_types) by (cbn; tauto).
  split; [exact point_types_ok|]. split; [exact Hin|].
  exact (proj1 (proj2 (proj2 (module_bindings __point_types point_types_ok))) _ _ _ Hin).
Defined.
